(** * Offline download pre-flight: storage permission service and download manager

    A shallow embedding of
      - [src/services/storage-permission-service.ts] (class
        [StoragePermissionService]) and
      - the pre-flight part of [src/components/quran/OfflineDownloadManager.tsx]
        ([checkStorageBeforeDownload], [handleDownload] and the loaders it
        calls).

    The TypeScript code is asynchronous but strictly sequential: every host
    call is awaited before the next statement runs.  It is embedded in a
    state-and-exception monad.  The browser (Storage API, Cache API, clock)
    is an abstract state machine [H] reached through the interface
    [HostAPI]; every call may answer differently from the previous one and
    may reject, which is how quota changes made by other tabs and failing
    host calls enter the model.  [localStorage] is modelled concretely as an
    ordered list of key/value pairs.  Every host call, console message and
    toast is appended to a trace, so that "is never invoked" and "exactly
    once" are statements about that trace.

    Byte counts are JavaScript numbers in the source; they are integers here
    ([Z]), as in the data model the code works with (quota, usage and the
    estimates are whole numbers of bytes). *)

From Stdlib Require Import ZArith List String Bool Lia.
Import ListNotations.

Open Scope string_scope.
Open Scope Z_scope.
Open Scope list_scope.

(** ** Values thrown and results of fallible calls *)

Inductive Exn : Type :=
| TypeError                      (* property access on [undefined], call of a missing method *)
| QuotaExceededError             (* [localStorage.setItem] refused *)
| Rejected (reason : string).    (* a host promise rejected *)

Inductive Result (A : Type) : Type :=
| Ok (a : A)
| Thrown (e : Exn).

Arguments Ok {A} a.
Arguments Thrown {A} e.

Definition is_thrown {A : Type} (r : Result A) : bool :=
  match r with Ok _ => false | Thrown _ => true end.

(** ** Data of the service *)

(** What [navigator.storage.estimate()] resolves to: both members are
    optional in the Storage standard. *)
Record StorageEstimate : Type := {
  estimate_quota : option Z;
  estimate_usage : option Z
}.

(** The object returned by [getStoragePermissionStatus]. *)
Record StorageStatus : Type := {
  persistent : bool;
  quota : Z;
  usage : Z;
  available : Z
}.

(** The object returned by [checkAvailableSpace]. *)
Record SpaceCheck : Type := {
  hasEnoughSpace : bool;
  availableBytes : Z;
  requiredBytes : Z;
  shortageBytes : Z
}.

(** The object returned by [canDownloadWithCleanup]. *)
Record CleanupDecision : Type := {
  canDownload : bool;
  needsCleanup : bool;
  availableAfterCleanup : Z
}.

(** An element of the array given to [estimateMultipleChaptersSize]. *)
Record Chapter : Type := {
  chapter_id : Z;
  verses_count : Z
}.

(** ** Data of the download manager component *)

Inductive DownloadStatus : Type := pending | downloading | completed | error.

Record DownloadProgress : Type := {
  chapterId : Z;
  chapterName : string;
  progress : Z;
  status : DownloadStatus
}.

Record StorageInfo : Type := {
  used : Z;
  info_quota : Z
}.

(** The [useState] cells of [OfflineDownloadManager]. *)
Record UI : Type := {
  selectedChapters : list Z;
  downloadedChapters : list Z;
  isDownloading : bool;
  downloadProgress : option DownloadProgress;
  overallProgress : Z;
  storageInfo : StorageInfo;
  isOnline : bool;
  isValidating : bool;
  storagePermissionOpen : bool;
  estimatedDownloadSize : Z
}.

(** ** The trace *)

Inductive Level : Type := log | warn | err.

(** One constructor per console statement of the two source files; the
    formatted text is replaced by its payload. *)
Inductive Message : Type :=
| MsgStatusFailed (e : Exn)          (* getStoragePermissionStatus, catch *)
| MsgApiUnsupported                  (* requestPersistentStorage, API missing *)
| MsgAlreadyPersistent               (* requestPersistentStorage, already persisted *)
| MsgGranted                         (* requestPersistentStorage, grant given *)
| MsgDenied                          (* requestPersistentStorage, grant refused *)
| MsgRequestFailed (e : Exn)         (* requestPersistentStorage, catch *)
| MsgSpaceCheckFailed (e : Exn)      (* checkAvailableSpace, catch *)
| MsgCleaned (freedBytes : Z)        (* cleanupOldData, end of the pass *)
| MsgCleanupFailed (e : Exn)         (* cleanupOldData, catch *)
| MsgDownloadedList (ids : list Z)   (* loadDownloadedChapters *)
| MsgListRevalidated                 (* loadDownloadedChapters, list rewritten *)
| MsgLoadListFailed (e : Exn)        (* loadDownloadedChapters, catch *)
| MsgStorageInfoFailed (e : Exn)     (* loadStorageInfo, catch *)
| MsgDownloadFailed (e : Exn).       (* handleDownload, catch *)

Inductive Toast : Type :=
| ToastNoSelection
| ToastOffline
| ToastInsufficientSpace (shortage : Z)
| ToastDownloadDone (count : nat)
| ToastDownloadFailed
| ToastLoadListFailed.

Inductive Event : Type :=
| EvEstimate (r : Result StorageEstimate)
| EvPersisted (r : Result bool)
| EvPersist (r : Result bool)
| EvCachesKeys (r : Result (list string))
| EvCachesDelete (cacheName : string) (r : Result bool)
| EvSetItem (key value : string) (accepted : bool)
| EvRemoveItem (key : string)
| EvConsole (l : Level) (m : Message)
| EvToast (t : Toast)
| EvDownloadMultiple (ids : list Z) (r : Result unit)
| EvGetDownloaded (r : Result (list Z))
| EvIsDownloaded (id : Z) (r : Result bool)
| EvUpdateDownloaded (ids : list Z) (r : Result unit)
| EvGetStorageSize (r : Result StorageInfo).

(** ** The host *)

(** The browser capabilities the service uses.  [H] is the browser's own
    state; a call returns its answer together with the next state. *)
Class HostAPI (H : Type) : Type := {
  storage_in_navigator : H -> bool;        (* 'storage' in navigator *)
  persist_in_storage : H -> bool;          (* 'persist' in navigator.storage *)
  storage_estimate : H -> Result StorageEstimate * H;
  storage_persisted : H -> Result bool * H;
  storage_persist : H -> Result bool * H;
  caches_in_window : H -> bool;            (* 'caches' in window *)
  caches_keys : H -> Result (list string) * H;
  caches_delete : string -> H -> Result bool * H;
  setItem_accepts : H -> string -> string -> bool;
  date_now_iso : H -> string               (* new Date().toISOString() *)
}.

(** The interface of [offlineStorageService], whose module is not among the
    sources: the component only calls it, so its methods are taken as
    further capabilities of the host.  [downloadMultipleChapters] answers
    with the progress callbacks it made and its outcome. *)
Class OfflineStorageService (H : Type) : Type := {
  downloadMultipleChapters :
    list Z -> H -> list (Z * DownloadProgress) * Result unit * H;
  getDownloadedChapters : H -> Result (list Z) * H;
  isChapterDownloaded : Z -> H -> Result bool * H;
  updateDownloadedChapters : list Z -> H -> Result unit * H;
  getStorageSize : H -> Result StorageInfo * H
}.

(** ** Program state and the monad *)

Record State (H : Type) : Type := mkState {
  host : H;
  localStorage : list (string * string);
  ui : UI;
  trace : list Event
}.

Arguments mkState {H} _ _ _ _.
Arguments host {H} _.
Arguments localStorage {H} _.
Arguments ui {H} _.
Arguments trace {H} _.

Definition M (H A : Type) : Type := State H -> Result A * State H.

Definition ret {H A : Type} (a : A) : M H A := fun s => (Ok a, s).

Definition throw {H A : Type} (e : Exn) : M H A := fun s => (Thrown e, s).

Definition bind {H A B : Type} (m : M H A) (k : A -> M H B) : M H B :=
  fun s =>
    match m s with
    | (Ok a, s') => k a s'
    | (Thrown e, s') => (Thrown e, s')
    end.

(** [try { body } catch (error) { handler error }] *)
Definition try_catch {H A : Type} (body : M H A) (handler : Exn -> M H A) : M H A :=
  fun s =>
    match body s with
    | (Ok a, s') => (Ok a, s')
    | (Thrown e, s') => handler e s'
    end.

(** [try { body } finally { fin }] with a [fin] that does not throw. *)
Definition try_finally {H A : Type} (body : M H A) (fin : M H unit) : M H A :=
  fun s =>
    match body s with
    | (r, s') => (r, snd (fin s'))
    end.

Declare Scope js_scope.
Delimit Scope js_scope with js.
Notation "x <- m ;; k" := (bind m (fun x => k))
  (at level 61, m at next level, right associativity) : js_scope.
Notation "m ;;; k" := (bind m (fun _ => k))
  (at level 61, right associativity) : js_scope.
Open Scope js_scope.

Definition emit {H : Type} (e : Event) : M H unit :=
  fun s => (Ok tt, mkState (host s) (localStorage s) (ui s) (trace s ++ [e])).

Definition console {H : Type} (l : Level) (m : Message) : M H unit :=
  emit (EvConsole l m).

(** A call of a host method: the host moves to its next state and the call
    is recorded with its answer. *)
Definition host_call {H A : Type} (f : H -> Result A * H) (ev : Result A -> Event)
  : M H A :=
  fun s =>
    let (r, h') := f (host s) in
    (r, mkState h' (localStorage s) (ui s) (trace s ++ [ev r])).

Definition read_host {H A : Type} (f : H -> A) : M H A :=
  fun s => (Ok (f (host s)), s).

(** ** localStorage *)

Definition Storage : Type := list (string * string).

Fixpoint getItem (key : string) (st : Storage) : option string :=
  match st with
  | [] => None
  | (k, v) :: rest => if String.eqb k key then Some v else getItem key rest
  end.

(** An existing key keeps its position, a new key goes last. *)
Fixpoint store_set (key value : string) (st : Storage) : Storage :=
  match st with
  | [] => [(key, value)]
  | (k, v) :: rest =>
      if String.eqb k key then (k, value) :: rest
      else (k, v) :: store_set key value rest
  end.

Fixpoint store_remove (key : string) (st : Storage) : Storage :=
  match st with
  | [] => []
  | (k, v) :: rest =>
      if String.eqb k key then rest else (k, v) :: store_remove key rest
  end.

(** [localStorage.key(i)], [null] when out of range. *)
Definition store_key (i : nat) (st : Storage) : option string :=
  option_map fst (nth_error st i).

(** [s.includes(sub)] *)
Definition includes (s sub : string) : bool :=
  match String.index 0 sub s with
  | Some _ => true
  | None => false
  end.

(** Truthiness of a string: only the empty string is falsy. *)
Definition truthy (s : string) : bool := negb (String.eqb s "").

(** [n || 0] for an optional number: [undefined] and [0] are falsy. *)
Definition or_zero (n : option Z) : Z :=
  match n with
  | Some q => if q =? 0 then 0 else q
  | None => 0
  end.

Section Service.

Context {H : Type} `{HostAPI H}.

Definition setItem (key value : string) : M H unit :=
  fun s =>
    if setItem_accepts (host s) key value then
      (Ok tt, mkState (host s) (store_set key value (localStorage s)) (ui s)
                      (trace s ++ [EvSetItem key value true]))
    else
      (Thrown QuotaExceededError,
       mkState (host s) (localStorage s) (ui s)
               (trace s ++ [EvSetItem key value false])).

Definition removeItem (key : string) : M H unit :=
  fun s =>
    (Ok tt, mkState (host s) (store_remove key (localStorage s)) (ui s)
                    (trace s ++ [EvRemoveItem key])).

(** [navigator.storage.estimate()]: a [TypeError] when [navigator.storage]
    is undefined. *)
Definition navigator_storage_estimate : M H StorageEstimate :=
  fun s =>
    if storage_in_navigator (host s)
    then host_call storage_estimate EvEstimate s
    else (Thrown TypeError, s).

Definition navigator_storage_persisted : M H bool :=
  fun s =>
    if storage_in_navigator (host s)
    then host_call storage_persisted EvPersisted s
    else (Thrown TypeError, s).

Definition navigator_storage_persist : M H bool :=
  fun s =>
    if storage_in_navigator (host s) && persist_in_storage (host s)
    then host_call storage_persist EvPersist s
    else (Thrown TypeError, s).

(** *** isStorageAPISupported *)
Definition isStorageAPISupported : M H bool :=
  read_host (fun h => storage_in_navigator h && persist_in_storage h).

(** *** getStoragePermissionStatus *)
Definition zeroed_status : StorageStatus :=
  {| persistent := false; quota := 0; usage := 0; available := 0 |}.

Definition getStoragePermissionStatus : M H StorageStatus :=
  try_catch
    (estimate <- navigator_storage_estimate ;;
     persistent <- navigator_storage_persisted ;;
     let quota := or_zero (estimate_quota estimate) in
     let usage := or_zero (estimate_usage estimate) in
     let available := quota - usage in
     ret {| persistent := persistent; quota := quota; usage := usage;
            available := available |})
    (fun error =>
       console err (MsgStatusFailed error) ;;;
       ret zeroed_status).

(** *** requestPersistentStorage *)
Definition requestPersistentStorage : M H bool :=
  try_catch
    (supported <- isStorageAPISupported ;;
     if negb supported then
       console warn MsgApiUnsupported ;;;
       ret false
     else
       isPersistent <- navigator_storage_persisted ;;
       if isPersistent then
         console log MsgAlreadyPersistent ;;;
         ret true
       else
         granted <- navigator_storage_persist ;;
         (if granted then
            console log MsgGranted ;;;
            setItem "storage-permission-granted" "true" ;;;
            now <- read_host date_now_iso ;;
            setItem "storage-permission-date" now
          else
            console log MsgDenied ;;;
            setItem "storage-permission-granted" "false") ;;;
         ret granted)
    (fun error =>
       console err (MsgRequestFailed error) ;;;
       ret false).

(** *** estimateChapterSize, estimateMultipleChaptersSize *)
Definition averageBytesPerVerse : Z := 500.
Definition chapterMetadata : Z := 1000.

Definition estimateChapterSize (versesCount : Z) : Z :=
  (versesCount * averageBytesPerVerse) + chapterMetadata.

Definition estimateMultipleChaptersSize (chapters : list Chapter) : Z :=
  fold_left
    (fun total chapter => total + estimateChapterSize (verses_count chapter))
    chapters 0.

(** *** checkAvailableSpace *)
Definition checkAvailableSpace (requiredBytes : Z) : M H SpaceCheck :=
  try_catch
    (status <- getStoragePermissionStatus ;;
     let hasEnoughSpace := available status >=? requiredBytes in
     let shortageBytes :=
       if hasEnoughSpace then 0 else requiredBytes - available status in
     ret {| hasEnoughSpace := hasEnoughSpace;
            availableBytes := available status;
            requiredBytes := requiredBytes;
            shortageBytes := shortageBytes |})
    (fun error =>
       console err (MsgSpaceCheckFailed error) ;;;
       ret {| hasEnoughSpace := false;
              availableBytes := 0;
              requiredBytes := requiredBytes;
              shortageBytes := requiredBytes |}).

(** *** cleanupOldData *)

(** [for (const cacheName of cacheNames) { ... }] *)
Fixpoint delete_stale_caches (cacheNames : list string) (freedBytes : Z) : M H Z :=
  match cacheNames with
  | [] => ret freedBytes
  | cacheName :: rest =>
      if includes cacheName "old" || includes cacheName "temp" then
        host_call (caches_delete cacheName) (EvCachesDelete cacheName) ;;;
        delete_stale_caches rest (freedBytes + 1024 * 1024)
      else
        delete_stale_caches rest freedBytes
  end.

(** [for (let i = 0; i < localStorage.length; i++) { ... }]: the body only
    reads the store, so the loop runs over a fixed store; [fuel] bounds the
    number of iterations. *)
Fixpoint collect_keys (st : Storage) (fuel i : nat) (keysToRemove : list string)
  : list string :=
  match fuel with
  | O => keysToRemove
  | S fuel' =>
      if (i <? List.length st)%nat then
        let keysToRemove' :=
          match store_key i st with
          | Some key =>
              if truthy key && (includes key "temp-" || includes key "cache-")
              then keysToRemove ++ [key]
              else keysToRemove
          | None => keysToRemove
          end in
        collect_keys st fuel' (S i) keysToRemove'
      else keysToRemove
  end.

Definition scan_localStorage : M H (list string) :=
  fun s =>
    (Ok (collect_keys (localStorage s) (S (List.length (localStorage s))) 0 []), s).

(** [keysToRemove.forEach(key => { ... })] *)
Fixpoint remove_keys (keysToRemove : list string) (freedBytes : Z) : M H Z :=
  match keysToRemove with
  | [] => ret freedBytes
  | key :: rest =>
      removeItem key ;;;
      remove_keys rest (freedBytes + 1024)
  end.

Definition cleanup_body : M H Z :=
  has_caches <- read_host caches_in_window ;;
  freedBytes <-
    (if has_caches then
       cacheNames <- host_call caches_keys EvCachesKeys ;;
       delete_stale_caches cacheNames 0
     else ret 0) ;;
  keysToRemove <- scan_localStorage ;;
  freedBytes <- remove_keys keysToRemove freedBytes ;;
  console log (MsgCleaned freedBytes) ;;;
  ret freedBytes.

Definition cleanupOldData : M H Z :=
  try_catch cleanup_body
    (fun error =>
       console err (MsgCleanupFailed error) ;;;
       ret 0).

(** *** canDownloadWithCleanup *)
Definition canDownloadWithCleanup (requiredBytes : Z) : M H CleanupDecision :=
  spaceCheck <- checkAvailableSpace requiredBytes ;;
  if hasEnoughSpace spaceCheck then
    ret {| canDownload := true;
           needsCleanup := false;
           availableAfterCleanup := availableBytes spaceCheck |}
  else
    freedBytes <- cleanupOldData ;;
    newSpaceCheck <- checkAvailableSpace requiredBytes ;;
    ret {| canDownload := hasEnoughSpace newSpaceCheck;
           needsCleanup := true;
           availableAfterCleanup := availableBytes newSpaceCheck |}.

End Service.

(** ** The download manager component *)

(** The state setters of the component ([setX(v)] of [useState]). *)
Definition with_selectedChapters (v : list Z) (u : UI) : UI :=
  {| selectedChapters := v;
     downloadedChapters := downloadedChapters u;
     isDownloading := isDownloading u;
     downloadProgress := downloadProgress u;
     overallProgress := overallProgress u;
     storageInfo := storageInfo u;
     isOnline := isOnline u;
     isValidating := isValidating u;
     storagePermissionOpen := storagePermissionOpen u;
     estimatedDownloadSize := estimatedDownloadSize u |}.

Definition with_downloadedChapters (v : list Z) (u : UI) : UI :=
  {| selectedChapters := selectedChapters u;
     downloadedChapters := v;
     isDownloading := isDownloading u;
     downloadProgress := downloadProgress u;
     overallProgress := overallProgress u;
     storageInfo := storageInfo u;
     isOnline := isOnline u;
     isValidating := isValidating u;
     storagePermissionOpen := storagePermissionOpen u;
     estimatedDownloadSize := estimatedDownloadSize u |}.

Definition with_isDownloading (v : bool) (u : UI) : UI :=
  {| selectedChapters := selectedChapters u;
     downloadedChapters := downloadedChapters u;
     isDownloading := v;
     downloadProgress := downloadProgress u;
     overallProgress := overallProgress u;
     storageInfo := storageInfo u;
     isOnline := isOnline u;
     isValidating := isValidating u;
     storagePermissionOpen := storagePermissionOpen u;
     estimatedDownloadSize := estimatedDownloadSize u |}.

Definition with_downloadProgress (v : option DownloadProgress) (u : UI) : UI :=
  {| selectedChapters := selectedChapters u;
     downloadedChapters := downloadedChapters u;
     isDownloading := isDownloading u;
     downloadProgress := v;
     overallProgress := overallProgress u;
     storageInfo := storageInfo u;
     isOnline := isOnline u;
     isValidating := isValidating u;
     storagePermissionOpen := storagePermissionOpen u;
     estimatedDownloadSize := estimatedDownloadSize u |}.

Definition with_overallProgress (v : Z) (u : UI) : UI :=
  {| selectedChapters := selectedChapters u;
     downloadedChapters := downloadedChapters u;
     isDownloading := isDownloading u;
     downloadProgress := downloadProgress u;
     overallProgress := v;
     storageInfo := storageInfo u;
     isOnline := isOnline u;
     isValidating := isValidating u;
     storagePermissionOpen := storagePermissionOpen u;
     estimatedDownloadSize := estimatedDownloadSize u |}.

Definition with_storageInfo (v : StorageInfo) (u : UI) : UI :=
  {| selectedChapters := selectedChapters u;
     downloadedChapters := downloadedChapters u;
     isDownloading := isDownloading u;
     downloadProgress := downloadProgress u;
     overallProgress := overallProgress u;
     storageInfo := v;
     isOnline := isOnline u;
     isValidating := isValidating u;
     storagePermissionOpen := storagePermissionOpen u;
     estimatedDownloadSize := estimatedDownloadSize u |}.

Definition with_storagePermissionOpen (v : bool) (u : UI) : UI :=
  {| selectedChapters := selectedChapters u;
     downloadedChapters := downloadedChapters u;
     isDownloading := isDownloading u;
     downloadProgress := downloadProgress u;
     overallProgress := overallProgress u;
     storageInfo := storageInfo u;
     isOnline := isOnline u;
     isValidating := isValidating u;
     storagePermissionOpen := v;
     estimatedDownloadSize := estimatedDownloadSize u |}.

Section Component.

Context {H : Type} `{HostAPI H} `{OfflineStorageService H}.

Definition set_ui (f : UI -> UI) : M H unit :=
  fun s => (Ok tt, mkState (host s) (localStorage s) (f (ui s)) (trace s)).

Definition toast (t : Toast) : M H unit := emit (EvToast t).

(** [offlineStorageService.downloadMultipleChapters(ids, (overall, current) =>
    { setOverallProgress(overall); setDownloadProgress(current); })] *)
Definition call_downloadMultipleChapters (ids : list Z) : M H unit :=
  fun s =>
    let '(callbacks, r, h') := downloadMultipleChapters ids (host s) in
    let u' :=
      fold_left
        (fun u cb =>
           with_downloadProgress (Some (snd cb)) (with_overallProgress (fst cb) u))
        callbacks (ui s) in
    (r, mkState h' (localStorage s) u' (trace s ++ [EvDownloadMultiple ids r])).

(** [for (const chapterId of downloaded) { ... }] of [loadDownloadedChapters] *)
Fixpoint validate_chapters (downloaded validChapters : list Z) : M H (list Z) :=
  match downloaded with
  | [] => ret validChapters
  | chapterId :: rest =>
      isValid <- host_call (isChapterDownloaded chapterId) (EvIsDownloaded chapterId) ;;
      if isValid then validate_chapters rest (validChapters ++ [chapterId])
      else validate_chapters rest validChapters
  end.

(** *** loadDownloadedChapters *)
Definition loadDownloadedChapters : M H unit :=
  try_catch
    (downloaded <- host_call getDownloadedChapters EvGetDownloaded ;;
     console log (MsgDownloadedList downloaded) ;;;
     set_ui (with_downloadedChapters downloaded) ;;;
     validChapters <- validate_chapters downloaded [] ;;
     if negb (List.length validChapters =? List.length downloaded)%nat then
       console log MsgListRevalidated ;;;
       host_call (updateDownloadedChapters validChapters)
                 (EvUpdateDownloaded validChapters) ;;;
       set_ui (with_downloadedChapters validChapters)
     else ret tt)
    (fun error =>
       console err (MsgLoadListFailed error) ;;;
       toast ToastLoadListFailed).

(** *** loadStorageInfo *)
Definition loadStorageInfo : M H unit :=
  try_catch
    (info <- host_call getStorageSize EvGetStorageSize ;;
     set_ui (with_storageInfo info))
    (fun error => console err (MsgStorageInfoFailed error)).

(** *** checkStorageBeforeDownload

    [r] holds the values the closure captured at render time
    ([selectedChapters], [isOnline], [estimatedDownloadSize]). *)
Definition check_persistence : M H bool :=
  storageStatus <- getStoragePermissionStatus ;;
  if negb (persistent storageStatus) then
    set_ui (with_storagePermissionOpen true) ;;;
    ret false
  else ret true.

Definition checkStorageBeforeDownload (r : UI) : M H bool :=
  if (List.length (selectedChapters r) =? 0)%nat then
    toast ToastNoSelection ;;;
    ret false
  else if negb (isOnline r) then
    toast ToastOffline ;;;
    ret false
  else
    spaceCheck <- checkAvailableSpace (estimatedDownloadSize r) ;;
    if negb (hasEnoughSpace spaceCheck) then
      cleanupResult <- canDownloadWithCleanup (estimatedDownloadSize r) ;;
      if negb (canDownload cleanupResult) then
        toast (ToastInsufficientSpace (shortageBytes spaceCheck)) ;;;
        set_ui (with_storagePermissionOpen true) ;;;
        ret false
      else check_persistence
    else check_persistence.

(** *** handleDownload

    [start_download] is the body of [handleDownload] after the pre-flight
    check. *)
Definition start_download (r : UI) : M H unit :=
  set_ui (with_isDownloading true) ;;;
  set_ui (with_overallProgress 0) ;;;
  try_finally
    (try_catch
       (call_downloadMultipleChapters (selectedChapters r) ;;;
        toast (ToastDownloadDone (List.length (selectedChapters r))) ;;;
        set_ui (with_selectedChapters []) ;;;
        loadDownloadedChapters ;;;
        loadStorageInfo)
       (fun error =>
          console err (MsgDownloadFailed error) ;;;
          toast ToastDownloadFailed))
    (set_ui (with_isDownloading false) ;;;
     set_ui (with_downloadProgress None) ;;;
     set_ui (with_overallProgress 0)).

Definition handleDownload (r : UI) : M H unit :=
  canProceed <- checkStorageBeforeDownload r ;;
  if negb canProceed then ret tt
  else start_download r.

End Component.

(** ** A concrete browser

    A small deterministic host, used to run the code on concrete inputs.
    Deleting a cache releases [reclaim] bytes of usage; the caches named in
    [locked] cannot be deleted ([caches.delete] rejects). *)
Record Browser : Type := mkBrowser {
  has_storage : bool;
  has_persist : bool;
  quota_bytes : option Z;
  usage_bytes : option Z;
  estimate_rejects : bool;
  persisted_answer : Result bool;
  persist_answer : Result bool;
  cache_names : option (list string);
  locked : list string;
  reclaim : Z;
  storage_full : bool;
  clock : string;
  registry : list Z
}.

Definition browser_estimate (b : Browser) : Result StorageEstimate * Browser :=
  if estimate_rejects b then (Thrown (Rejected "estimate"), b)
  else (Ok {| estimate_quota := quota_bytes b; estimate_usage := usage_bytes b |}, b).

Definition browser_persist (b : Browser) : Result bool * Browser :=
  match persist_answer b with
  | Ok true =>
      (Ok true,
       mkBrowser (has_storage b) (has_persist b) (quota_bytes b) (usage_bytes b)
                 (estimate_rejects b) (Ok true) (persist_answer b) (cache_names b)
                 (locked b) (reclaim b) (storage_full b) (clock b) (registry b))
  | r => (r, b)
  end.

Definition browser_caches_keys (b : Browser) : Result (list string) * Browser :=
  match cache_names b with
  | Some names => (Ok names, b)
  | None => (Thrown (Rejected "caches.keys"), b)
  end.

Definition browser_caches_delete (name : string) (b : Browser)
  : Result bool * Browser :=
  if existsb (String.eqb name) (locked b) then (Thrown (Rejected name), b)
  else
    match cache_names b with
    | Some names =>
        if existsb (String.eqb name) names then
          (Ok true,
           mkBrowser (has_storage b) (has_persist b) (quota_bytes b)
                     (option_map (fun u => u - reclaim b) (usage_bytes b))
                     (estimate_rejects b) (persisted_answer b) (persist_answer b)
                     (Some (filter (fun n => negb (String.eqb name n)) names))
                     (locked b) (reclaim b) (storage_full b) (clock b) (registry b))
        else (Ok false, b)
    | None => (Ok false, b)
    end.

#[export] Instance Browser_HostAPI : HostAPI Browser := {
  storage_in_navigator := has_storage;
  persist_in_storage := has_persist;
  storage_estimate := browser_estimate;
  storage_persisted := fun b => (persisted_answer b, b);
  storage_persist := browser_persist;
  caches_in_window := fun b => match cache_names b with Some _ => true | None => false end;
  caches_keys := browser_caches_keys;
  caches_delete := browser_caches_delete;
  setItem_accepts := fun b _ _ => negb (storage_full b);
  date_now_iso := clock
}.

Definition browser_set_registry (ids : list Z) (b : Browser) : Browser :=
  mkBrowser (has_storage b) (has_persist b) (quota_bytes b) (usage_bytes b)
            (estimate_rejects b) (persisted_answer b) (persist_answer b)
            (cache_names b) (locked b) (reclaim b) (storage_full b) (clock b) ids.

#[export] Instance Browser_OfflineStorageService : OfflineStorageService Browser := {
  downloadMultipleChapters :=
    fun ids b => ([], Ok tt, browser_set_registry (registry b ++ ids) b);
  getDownloadedChapters := fun b => (Ok (registry b), b);
  isChapterDownloaded := fun id b => (Ok (existsb (Z.eqb id) (registry b)), b);
  updateDownloadedChapters := fun ids b => (Ok tt, browser_set_registry ids b);
  getStorageSize :=
    fun b => (Ok {| used := or_zero (usage_bytes b);
                    info_quota := or_zero (quota_bytes b) |}, b)
}.

Definition MB : Z := 1024 * 1024.

(** 10 MB quota, 8 MB used, storage not persisted, the user would refuse the
    grant; three stale caches of 1 MB each, the second one locked. *)
Definition browser0 : Browser :=
  {| has_storage := true;
     has_persist := true;
     quota_bytes := Some (10 * MB);
     usage_bytes := Some (8 * MB);
     estimate_rejects := false;
     persisted_answer := Ok false;
     persist_answer := Ok false;
     cache_names := Some ["old-pages"; "temp-audio"; "quran-v2"; "old-fonts"];
     locked := ["temp-audio"];
     reclaim := 1 * MB;
     storage_full := false;
     clock := "2024-01-01T00:00:00.000Z";
     registry := [] |}.

Definition ui0 : UI :=
  {| selectedChapters := [1; 2];
     downloadedChapters := [];
     isDownloading := false;
     downloadProgress := None;
     overallProgress := 0;
     storageInfo := {| used := 0; info_quota := 0 |};
     isOnline := true;
     isValidating := false;
     storagePermissionOpen := false;
     estimatedDownloadSize := 147000 |}.

Definition state0 : State Browser :=
  mkState browser0 [("theme", "dark"); ("temp-draft", "x"); ("cache-list", "y")] ui0 [].

(** The same browser with nothing locked. *)
Definition browser_unlocked : Browser :=
  mkBrowser true true (Some (10 * MB)) (Some (8 * MB)) false (Ok false) (Ok false)
            (Some ["old-pages"; "temp-audio"; "quran-v2"; "old-fonts"]) []
            (1 * MB) false "2024-01-01T00:00:00.000Z" [].

(** A browser without the Storage API. *)
Definition browser_legacy : Browser :=
  mkBrowser false false None None false (Ok false) (Ok false) None [] 0 false
            "2024-01-01T00:00:00.000Z" [].

(** A browser in which durable storage is already persisted. *)
Definition browser_persisted : Browser :=
  mkBrowser true true (Some (10 * MB)) (Some (8 * MB)) false (Ok true) (Ok true)
            (Some []) [] 0 false "2024-01-01T00:00:00.000Z" [].

(** A browser whose user accepts the grant. *)
Definition browser_granting : Browser :=
  mkBrowser true true (Some (10 * MB)) (Some (8 * MB)) false (Ok false) (Ok true)
            (Some []) [] 0 false "2024-01-01T00:00:00.000Z" [].

Definition with_host (b : Browser) (s : State Browser) : State Browser :=
  mkState b (localStorage s) (ui s) (trace s).

(** ** Vocabulary for the statements *)

(** Events of a quota probe ([getStoragePermissionStatus],
    [checkAvailableSpace]). *)
Definition probe_event (e : Event) : bool :=
  match e with
  | EvEstimate _ | EvPersisted _ => true
  | EvConsole err (MsgStatusFailed _) => true
  | EvConsole err (MsgSpaceCheckFailed _) => true
  | _ => false
  end.

(** Events of a cleanup pass ([cleanupOldData]). *)
Definition cleanup_event (e : Event) : bool :=
  match e with
  | EvCachesKeys _ | EvCachesDelete _ _ | EvRemoveItem _ => true
  | EvConsole log (MsgCleaned _) => true
  | EvConsole err (MsgCleanupFailed _) => true
  | _ => false
  end.

(** The console statement every cleanup pass ends with, on either path. *)
Definition cleanup_end (e : Event) : bool :=
  match e with
  | EvConsole log (MsgCleaned _) => true
  | EvConsole err (MsgCleanupFailed _) => true
  | _ => false
  end.

(** The work of a cleanup pass before its final console statement. *)
Definition cleanup_work (e : Event) : bool :=
  match e with
  | EvCachesKeys _ | EvCachesDelete _ _ | EvRemoveItem _ => true
  | _ => false
  end.

Definition service_event (e : Event) : bool := probe_event e || cleanup_event e.

Definition preflight_event (e : Event) : bool :=
  match e with
  | EvToast _ => true
  | _ => service_event e
  end.

Definition any_event (e : Event) : bool := true.

(** A rejected Cache API call. *)
Definition host_failure (e : Event) : bool :=
  match e with
  | EvCachesKeys (Thrown _) | EvCachesDelete _ (Thrown _) => true
  | _ => false
  end.

Definition cache_deleted (e : Event) : bool :=
  match e with EvCachesDelete _ (Ok _) => true | _ => false end.

Definition key_removed (e : Event) : bool :=
  match e with EvRemoveItem _ => true | _ => false end.

(** A call of [caches.delete(cacheName)], whatever its answer. *)
Definition delete_attempt (cacheName : string) (e : Event) : bool :=
  match e with
  | EvCachesDelete n _ => String.eqb n cacheName
  | _ => false
  end.

Definition grant_request (e : Event) : bool :=
  match e with EvPersist _ => true | _ => false end.

Definition download_started (e : Event) : bool :=
  match e with EvDownloadMultiple _ _ => true | _ => false end.

Definition reports_persisted (e : Event) : bool :=
  match e with EvPersisted (Ok true) => true | _ => false end.

Definition is_toast (e : Event) : bool :=
  match e with EvToast _ => true | _ => false end.

(** Sum of a list of byte counts. *)
Fixpoint list_sum_Z (l : list Z) : Z :=
  match l with
  | [] => 0
  | x :: rest => x + list_sum_Z rest
  end.

Definition count (P : Event -> bool) (t : list Event) : nat :=
  List.length (filter P t).

(** The keys [cleanupOldData] selects in a store. *)
Definition stale_key (key : string) : bool :=
  truthy key && (includes key "temp-" || includes key "cache-").

Definition stale_cache (cacheName : string) : bool :=
  includes cacheName "old" || includes cacheName "temp".

Section Vocabulary.

Context {H : Type} `{HostAPI H}.

(** The events a run from [s] to [s'] appended. *)
Definition events_since (s s' : State H) : list Event :=
  skipn (List.length (trace s)) (trace s').

Definition never_throws {A : Type} (m : M H A) : Prop :=
  forall s, exists a s', m s = (Ok a, s').

(** From [s] to [s'] only events of class [P] were appended, and the part
    [f] of the component state was left alone. *)
Definition steps {X : Type} (P : Event -> bool) (f : UI -> X) (s s' : State H)
  : Prop :=
  (exists new, trace s' = trace s ++ new /\ forallb P new = true)
  /\ f (ui s') = f (ui s).

Definition respects {X A : Type} (P : Event -> bool) (f : UI -> X) (m : M H A)
  : Prop :=
  forall s, steps P f s (snd (m s)).

(** What follows the cache loop in [cleanupOldData]: the key scan, the
    removals and the final console statement. *)
Definition cleanup_tail (freedBytes : Z) : M H Z :=
  keysToRemove <- scan_localStorage ;;
  freedBytes <- remove_keys keysToRemove freedBytes ;;
  console log (MsgCleaned freedBytes) ;;;
  ret freedBytes.

(** The host capability fails during a probe started in [s]: the API is
    absent, [estimate()] rejects, or [persisted()] rejects. *)
Definition probe_fails (s : State H) : bool :=
  negb (storage_in_navigator (host s))
  || is_thrown (fst (storage_estimate (host s)))
  || negb (storage_in_navigator (snd (storage_estimate (host s))))
  || is_thrown (fst (storage_persisted (snd (storage_estimate (host s))))).

(** Durable storage is already persistent in [s]: the Storage API is there
    and [navigator.storage.persisted()] answers [true]. *)
Definition already_persistent (s : State H) : bool :=
  storage_in_navigator (host s) && persist_in_storage (host s)
  && match fst (storage_persisted (host s)) with
     | Ok true => true
     | _ => false
     end.

(** The request is well formed (something is selected, the device is
    online) and the space check of the pre-flight passes at once. *)
Definition space_is_sufficient (r : UI) (s : State H) : bool :=
  negb (List.length (selectedChapters r) =? 0)%nat
  && isOnline r
  && match fst (checkAvailableSpace (estimatedDownloadSize r) s) with
     | Ok c => hasEnoughSpace c
     | Thrown _ => false
     end.

End Vocabulary.

(** ** Selection handling of the download manager

    [chaptersData] is what the hook [useQuranApiChapters] delivers: [None]
    while [chaptersData?.chapters] is undefined. *)

Definition with_estimatedDownloadSize (v : Z) (u : UI) : UI :=
  {| selectedChapters := selectedChapters u;
     downloadedChapters := downloadedChapters u;
     isDownloading := isDownloading u;
     downloadProgress := downloadProgress u;
     overallProgress := overallProgress u;
     storageInfo := storageInfo u;
     isOnline := isOnline u;
     isValidating := isValidating u;
     storagePermissionOpen := storagePermissionOpen u;
     estimatedDownloadSize := v |}.

(** [array.includes(id)] on chapter ids. *)
Definition includes_id (ids : list Z) (id : Z) : bool :=
  existsb (fun x => x =? id) ids.

(** *** handleChapterSelect *)
Definition handleChapterSelect (chapterId : Z) (checked : bool) (u : UI) : UI :=
  if checked then
    with_selectedChapters (selectedChapters u ++ [chapterId]) u
  else
    with_selectedChapters
      (filter (fun id => negb (id =? chapterId)) (selectedChapters u)) u.

(** *** handleSelectAll *)
Definition handleSelectAll (chaptersData : option (list Chapter)) (u : UI) : UI :=
  match chaptersData with
  | None => u
  | Some chapters =>
      let allChapterIds := map chapter_id chapters in
      let undownloadedChapters :=
        filter (fun id => negb (includes_id (downloadedChapters u) id)) allChapterIds in
      if (List.length (selectedChapters u) =? List.length undownloadedChapters)%nat
      then with_selectedChapters [] u
      else with_selectedChapters undownloadedChapters u
  end.

(** *** The effect that recomputes the estimated download size

    It runs whenever [selectedChapters] or [chaptersData] changes. *)
Definition updateEstimatedDownloadSize (chaptersData : option (list Chapter)) (u : UI)
  : UI :=
  match chaptersData with
  | Some chapters =>
      if (0 <? List.length (selectedChapters u))%nat then
        let selectedChapterData :=
          filter (fun chapter => includes_id (selectedChapters u) (chapter_id chapter))
                 chapters in
        with_estimatedDownloadSize (estimateMultipleChaptersSize selectedChapterData) u
      else with_estimatedDownloadSize 0 u
  | None => with_estimatedDownloadSize 0 u
  end.

(** ** Further inputs and vocabulary *)

(** A browser whose user accepts the grant while [localStorage] is full. *)
Definition browser_full : Browser :=
  mkBrowser true true (Some (10 * MB)) (Some (8 * MB)) false (Ok false) (Ok true)
            (Some []) [] 0 true "2024-01-01T00:00:00.000Z" [].

(** A browser whose registry lists three chapters. *)
Definition browser_registry : Browser :=
  mkBrowser true true (Some (10 * MB)) (Some (8 * MB)) false (Ok true) (Ok true)
            (Some []) [] 0 false "2024-01-01T00:00:00.000Z" [1; 2; 3].

(** A state with nothing to reclaim: no stale key, no cache bucket. *)
Definition state_clean : State Browser :=
  mkState browser_persisted [("theme", "dark")] ui0 [].

(** The request of [ui0] with an estimate of 6 MB. *)
Definition ui_large : UI := with_estimatedDownloadSize (6 * MB) ui0.

(** The request of [ui0] with an estimate of 4 MB: more than the 2 MB that
    are available, less than the 5 MB available after a cleanup. *)
Definition ui_retry : UI := with_estimatedDownloadSize (4 * MB) ui0.

(** The request of [ui0] with nothing selected. *)
Definition ui_empty : UI := with_selectedChapters [] ui0.

(** The host said that storage is persistent: [persisted()] or [persist()]
    answered [true]. *)
Definition persistence_confirmed (e : Event) : bool :=
  match e with
  | EvPersisted (Ok true) | EvPersist (Ok true) => true
  | _ => false
  end.

(** A grant request that the host answered. *)
Definition grant_answered (e : Event) : bool :=
  match e with EvPersist (Ok _) => true | _ => false end.

(** A write to [localStorage], accepted or not. *)
Definition storage_write (e : Event) : bool :=
  match e with EvSetItem _ _ _ => true | _ => false end.

(** Deletions and removals concern stale buckets and stale keys only. *)
Definition stale_only (e : Event) : bool :=
  match e with
  | EvCachesDelete cacheName _ => stale_cache cacheName
  | EvRemoveItem key => stale_key key
  | _ => true
  end.

(** The store without its stale keys. *)
Definition without_stale (st : Storage) : Storage :=
  filter (fun kv => negb (stale_key (fst kv))) st.

(** The ids a run validated: [isChapterDownloaded(id)] answered [true]. *)
Fixpoint valid_ids (t : list Event) : list Z :=
  match t with
  | [] => []
  | EvIsDownloaded id (Ok true) :: rest => id :: valid_ids rest
  | _ :: rest => valid_ids rest
  end.

Definition invalid_seen (e : Event) : bool :=
  match e with EvIsDownloaded _ (Ok false) => true | _ => false end.

Definition validation_answer (e : Event) : bool :=
  match e with EvIsDownloaded _ (Ok _) => true | _ => false end.

Definition list_rewritten (e : Event) : bool :=
  match e with EvUpdateDownloaded _ _ => true | _ => false end.

(** A rejected call of the offline storage service. *)
Definition service_failure (e : Event) : bool :=
  match e with
  | EvDownloadMultiple _ (Thrown _) | EvGetDownloaded (Thrown _)
  | EvIsDownloaded _ (Thrown _) | EvUpdateDownloaded _ (Thrown _)
  | EvGetStorageSize (Thrown _) => true
  | _ => false
  end.

Definition download_rejected (e : Event) : bool :=
  match e with EvDownloadMultiple _ (Thrown _) => true | _ => false end.

(** Events of the reload after a download ([loadDownloadedChapters],
    [loadStorageInfo]). *)
Definition reload_event (e : Event) : bool :=
  match e with
  | EvGetDownloaded _ | EvIsDownloaded _ _ | EvUpdateDownloaded _ _
  | EvGetStorageSize _ => true
  | EvConsole log (MsgDownloadedList _) | EvConsole log MsgListRevalidated => true
  | EvConsole err (MsgLoadListFailed _) | EvConsole err (MsgStorageInfoFailed _) => true
  | EvToast ToastLoadListFailed => true
  | _ => false
  end.

(** Events of the pre-flight, with the three toasts it can show. *)
Definition precheck_event (e : Event) : bool :=
  match e with
  | EvToast ToastNoSelection | EvToast ToastOffline
  | EvToast (ToastInsufficientSpace _) => true
  | EvToast _ => false
  | _ => service_event e
  end.

(** The ids a run asked [isChapterDownloaded] about, in order. *)
Fixpoint asked_ids (t : list Event) : list Z :=
  match t with
  | [] => []
  | EvIsDownloaded id _ :: rest => id :: asked_ids rest
  | _ :: rest => asked_ids rest
  end.

(** The part of the component state that a reload leaves alone. *)
Definition outside_reload (u : UI) : UI :=
  with_storageInfo {| used := 0; info_quota := 0 |} (with_downloadedChapters [] u).

(** A download call is made for the ids [selected]. *)
Definition downloads_selection (selected : list Z) (e : Event) : bool :=
  match e with
  | EvDownloadMultiple ids _ =>
      if list_eq_dec Z.eq_dec ids selected then true else false
  | _ => true
  end.

Definition toast_is (t : Toast) (e : Event) : bool :=
  match e, t with
  | EvToast ToastNoSelection, ToastNoSelection => true
  | EvToast ToastOffline, ToastOffline => true
  | EvToast (ToastInsufficientSpace n), ToastInsufficientSpace m => n =? m
  | EvToast (ToastDownloadDone n), ToastDownloadDone m => (n =? m)%nat
  | EvToast ToastDownloadFailed, ToastDownloadFailed => true
  | EvToast ToastLoadListFailed, ToastLoadListFailed => true
  | _, _ => false
  end.

Section FurtherVocabulary.

Context {H : Type} `{HostAPI H}.

(** The pre-flight stops at its precondition checks: nothing is selected or
    the device is offline. *)
Definition precondition_fails (r : UI) : bool :=
  (List.length (selectedChapters r) =? 0)%nat || negb (isOnline r).

(** A cleanup pass started in [s] finds nothing to reclaim: no stale key in
    [localStorage], and no Cache API or no stale bucket among the names
    [caches.keys()] resolves to. *)
Definition nothing_to_reclaim (s : State H) : bool :=
  forallb (fun key => negb (stale_key key)) (map fst (localStorage s))
  && (negb (caches_in_window (host s))
      || match fst (caches_keys (host s)) with
         | Ok cacheNames => forallb (fun n => negb (stale_cache n)) cacheNames
         | Thrown _ => false
         end).

(** The grant request of [requestPersistentStorage] started in [s] is issued
    and answered [true], and [localStorage] refuses the first write. *)
Definition granted_but_unrecorded (s : State H) : bool :=
  storage_in_navigator (host s) && persist_in_storage (host s)
  && match storage_persisted (host s) with
     | (Ok false, h1) =>
         storage_in_navigator h1 && persist_in_storage h1
         && match storage_persist h1 with
            | (Ok true, h2) =>
                negb (setItem_accepts h2 "storage-permission-granted" "true")
            | _ => false
            end
     | _ => false
     end.

(** The request is well formed and the space check of the pre-flight
    passes, at once or in the retry that follows the cleanup. *)
Definition space_suffices (r : UI) (s : State H) : bool :=
  negb (precondition_fails r)
  && match checkAvailableSpace (estimatedDownloadSize r) s with
     | (Ok c, sa) =>
         hasEnoughSpace c
         || match fst (canDownloadWithCleanup (estimatedDownloadSize r) sa) with
            | Ok d => canDownload d
            | Thrown _ => false
            end
     | (Thrown _, _) => false
     end.

End FurtherVocabulary.

(** * Properties *)

(** ** The size estimator *)

Lemma fold_estimate_shift (chapters : list Chapter) (acc : Z) :
  fold_left (fun total chapter => total + estimateChapterSize (verses_count chapter))
            chapters acc
  = acc + list_sum_Z (map (fun chapter => estimateChapterSize (verses_count chapter))
                        chapters).
Proof.
  revert acc.
  induction chapters as [| c chapters IH]; intros acc; cbn [fold_left map list_sum_Z].
  - lia.
  - rewrite IH. lia.
Qed.

(** C2: [estimateMultipleChaptersSize] is the sum of [estimateChapterSize]
    over the elements of its argument, in particular
    [estimateMany [item u1; item u2] = estimate u1 + estimate u2], and
    [estimateChapterSize] is monotonic in the unit count.  Nothing here needs
    the unit counts to be non-negative. *)
Theorem estimateMultipleChaptersSize_additive
  (chapters : list Chapter) (c1 c2 : Chapter) (u1 u2 : Z) (Hle : u1 <= u2) :
  estimateMultipleChaptersSize chapters
  = list_sum_Z (map (fun chapter => estimateChapterSize (verses_count chapter)) chapters)
  /\ estimateMultipleChaptersSize [c1; c2]
     = estimateChapterSize (verses_count c1) + estimateChapterSize (verses_count c2)
  /\ estimateChapterSize u1 <= estimateChapterSize u2.
Proof.
  unfold estimateMultipleChaptersSize.
  split; [| split].
  - rewrite fold_estimate_shift. lia.
  - rewrite fold_estimate_shift. cbn [map list_sum_Z]. lia.
  - unfold estimateChapterSize, averageBytesPerVerse, chapterMetadata. lia.
Qed.

Lemma estimateMultipleChaptersSize_additive_witness :
  7 <= 286
  /\ estimateMultipleChaptersSize
       [ {| chapter_id := 1; verses_count := 7 |};
         {| chapter_id := 2; verses_count := 286 |} ]
     = estimateChapterSize 7 + estimateChapterSize 286
  /\ estimateChapterSize 7 <= estimateChapterSize 286.
Proof.
  split; [lia |].
  exact (proj2 (estimateMultipleChaptersSize_additive
                  [] {| chapter_id := 1; verses_count := 7 |}
                  {| chapter_id := 2; verses_count := 286 |} 7 286 ltac:(lia))).
Defined.

(** C9: for every non-negative unit count [u], [estimateChapterSize u] is at
    least the fixed overhead of 1000 bytes; [estimateChapterSize 0 = 1000],
    so the estimate is strictly positive even for an item without units. *)
Theorem estimateChapterSize_overhead (u : Z) (Hu : 0 <= u) :
  1000 <= estimateChapterSize u
  /\ estimateChapterSize 0 = 1000
  /\ 0 < estimateChapterSize u.
Proof.
  unfold estimateChapterSize, averageBytesPerVerse, chapterMetadata. lia.
Qed.

Lemma estimateChapterSize_overhead_witness :
  0 <= 0 /\ 1000 <= estimateChapterSize 0 /\ 0 < estimateChapterSize 0.
Proof.
  split; [lia |].
  pose proof (estimateChapterSize_overhead 0 ltac:(lia)) as [Hmin [_ Hpos]].
  split; assumption.
Defined.

(** ** Reasoning about runs of the monad *)

Section Runs.

Context {H : Type} `{HostAPI H}.

Lemma events_since_app (s s' : State H) (new : list Event) :
  trace s' = trace s ++ new -> events_since s s' = new.
Proof.
  intros E. unfold events_since. rewrite E.
  rewrite skipn_app, skipn_all, Nat.sub_diag. reflexivity.
Qed.

Lemma count_app (P : Event -> bool) (t1 t2 : list Event) :
  count P (t1 ++ t2) = (count P t1 + count P t2)%nat.
Proof. unfold count. rewrite filter_app, length_app. reflexivity. Qed.

Lemma count_none (P Q : Event -> bool) (t : list Event) :
  (forall e, Q e = true -> P e = false) ->
  forallb Q t = true -> count P t = 0%nat.
Proof.
  intros HPQ. unfold count.
  induction t as [| e t IH]; cbn [forallb filter]; intros Hall.
  - reflexivity.
  - apply andb_true_iff in Hall as [He Ht].
    rewrite (HPQ e He). auto.
Qed.

Lemma existsb_none (P Q : Event -> bool) (t : list Event) :
  (forall e, Q e = true -> P e = false) ->
  forallb Q t = true -> existsb P t = false.
Proof.
  intros HPQ.
  induction t as [| e t IH]; cbn [forallb existsb]; intros Hall.
  - reflexivity.
  - apply andb_true_iff in Hall as [He Ht].
    rewrite (HPQ e He). auto.
Qed.

Lemma forallb_weaken (P Q : Event -> bool) (t : list Event) :
  (forall e, P e = true -> Q e = true) ->
  forallb P t = true -> forallb Q t = true.
Proof.
  intros HPQ. rewrite !forallb_forall. auto.
Qed.

Section Frame.

Context {X : Type} (P : Event -> bool) (f : UI -> X).

Lemma steps_refl (s : State H) : steps P f s s.
Proof.
  split; [exists []; rewrite app_nil_r; auto | reflexivity].
Qed.

Lemma steps_trans (s1 s2 s3 : State H) :
  steps P f s1 s2 -> steps P f s2 s3 -> steps P f s1 s3.
Proof.
  intros [[n1 [E1 F1]] U1] [[n2 [E2 F2]] U2].
  split.
  - exists (n1 ++ n2). rewrite E2, E1, app_assoc, forallb_app, F1, F2. auto.
  - congruence.
Qed.

Lemma steps_event (s : State H) (h : H) (st : Storage) (e : Event) :
  P e = true ->
  steps P f s (mkState h st (ui s) (trace s ++ [e])).
Proof.
  intros He. split; [| reflexivity].
  exists [e]. cbn. rewrite He. auto.
Qed.

Lemma respects_ret {A : Type} (a : A) : respects P f (@ret H A a).
Proof. intros s. apply steps_refl. Qed.

Lemma respects_throw {A : Type} (e : Exn) : respects P f (@throw H A e).
Proof. intros s. apply steps_refl. Qed.

Lemma respects_bind {A B : Type} (m : M H A) (k : A -> M H B) :
  respects P f m -> (forall a, respects P f (k a)) -> respects P f (bind m k).
Proof.
  intros Hm Hk s. unfold bind.
  specialize (Hm s). destruct (m s) as [[a | e] s1]; cbn [snd] in *.
  - eapply steps_trans; [exact Hm | apply Hk].
  - exact Hm.
Qed.

Lemma respects_try_catch {A : Type} (body : M H A) (handler : Exn -> M H A) :
  respects P f body -> (forall e, respects P f (handler e)) ->
  respects P f (try_catch body handler).
Proof.
  intros Hb Hh s. unfold try_catch.
  specialize (Hb s). destruct (body s) as [[a | e] s1]; cbn [snd] in *.
  - exact Hb.
  - eapply steps_trans; [exact Hb | apply Hh].
Qed.

Lemma respects_try_finally {A : Type} (body : M H A) (fin : M H unit) :
  respects P f body -> respects P f fin -> respects P f (try_finally body fin).
Proof.
  intros Hb Hf s. unfold try_finally.
  specialize (Hb s). destruct (body s) as [r s1]; cbn [snd] in *.
  eapply steps_trans; [exact Hb | apply Hf].
Qed.

Lemma respects_read_host {A : Type} (g : H -> A) : respects P f (read_host g).
Proof. intros s. apply steps_refl. Qed.

Lemma respects_emit (e : Event) : P e = true -> respects P f (@emit H e).
Proof. intros He s. cbn. apply steps_event, He. Qed.

Lemma respects_console (l : Level) (m : Message) :
  P (EvConsole l m) = true -> respects P f (@console H l m).
Proof. apply respects_emit. Qed.

Lemma respects_host_call {A : Type} (g : H -> Result A * H) (ev : Result A -> Event) :
  (forall r, P (ev r) = true) -> respects P f (host_call g ev).
Proof.
  intros He s. unfold host_call.
  destruct (g (host s)) as [r h']. cbn [snd]. apply steps_event, He.
Qed.

Lemma respects_setItem (key value : string) :
  (forall b, P (EvSetItem key value b) = true) -> respects P f (setItem key value).
Proof.
  intros He s. unfold setItem.
  destruct (setItem_accepts (host s) key value); cbn [snd]; apply steps_event, He.
Qed.

Lemma respects_removeItem (key : string) :
  P (EvRemoveItem key) = true -> respects P f (@removeItem H key).
Proof. intros He s. cbn. apply steps_event, He. Qed.

Lemma respects_set_ui (g : UI -> UI) :
  (forall u, f (g u) = f u) -> respects P f (@set_ui H g).
Proof.
  intros Hg s. split; cbn.
  - exists []. rewrite app_nil_r. auto.
  - apply Hg.
Qed.

End Frame.

Lemma respects_weaken {X A : Type} (P Q : Event -> bool) (f : UI -> X) (m : M H A) :
  (forall e, P e = true -> Q e = true) ->
  respects P f m -> respects Q f m.
Proof.
  intros HPQ Hm s. destruct (Hm s) as [[new [E F]] U].
  split; [| exact U].
  exists new. split; [exact E |]. eapply forallb_weaken; eauto.
Qed.

(** *** Computations that never throw *)

Lemma never_throws_ret {A : Type} (a : A) : never_throws (@ret H A a).
Proof. intros s. eexists _, _. reflexivity. Qed.

Lemma never_throws_bind {A B : Type} (m : M H A) (k : A -> M H B) :
  never_throws m -> (forall a, never_throws (k a)) -> never_throws (bind m k).
Proof.
  intros Hm Hk s. unfold bind.
  destruct (Hm s) as [a [s1 E]]. rewrite E. apply Hk.
Qed.

Lemma never_throws_try_catch {A : Type} (body : M H A) (handler : Exn -> M H A) :
  (forall e, never_throws (handler e)) -> never_throws (try_catch body handler).
Proof.
  intros Hh s. unfold try_catch.
  destruct (body s) as [[a | e] s1].
  - eexists _, _. reflexivity.
  - apply Hh.
Qed.

Lemma never_throws_emit (e : Event) : never_throws (@emit H e).
Proof. intros s. eexists _, _. reflexivity. Qed.

Lemma never_throws_set_ui (g : UI -> UI) : never_throws (@set_ui H g).
Proof. intros s. eexists _, _. reflexivity. Qed.

Lemma never_throws_read_host {A : Type} (g : H -> A) : never_throws (read_host g).
Proof. intros s. eexists _, _. reflexivity. Qed.

End Runs.

(** ** The quota probe and the space check *)

Section ServiceProperties.

Context {H : Type} `{HostAPI H}.

Lemma getStoragePermissionStatus_never_throws :
  never_throws getStoragePermissionStatus.
Proof.
  apply never_throws_try_catch. intros e.
  apply never_throws_bind; [apply never_throws_emit | intros _; apply never_throws_ret].
Qed.

Lemma respects_navigator_storage_estimate {X : Type} (P : Event -> bool) (f : UI -> X) :
  (forall r, P (EvEstimate r) = true) -> respects P f navigator_storage_estimate.
Proof.
  intros HP s. unfold navigator_storage_estimate.
  destruct (storage_in_navigator (host s)).
  - apply respects_host_call, HP.
  - apply steps_refl.
Qed.

Lemma respects_navigator_storage_persisted {X : Type} (P : Event -> bool) (f : UI -> X) :
  (forall r, P (EvPersisted r) = true) -> respects P f navigator_storage_persisted.
Proof.
  intros HP s. unfold navigator_storage_persisted.
  destruct (storage_in_navigator (host s)).
  - apply respects_host_call, HP.
  - apply steps_refl.
Qed.

Lemma respects_navigator_storage_persist {X : Type} (P : Event -> bool) (f : UI -> X) :
  (forall r, P (EvPersist r) = true) -> respects P f navigator_storage_persist.
Proof.
  intros HP s. unfold navigator_storage_persist.
  destruct (storage_in_navigator (host s) && persist_in_storage (host s)).
  - apply respects_host_call, HP.
  - apply steps_refl.
Qed.

Lemma respects_getStoragePermissionStatus {X : Type} (f : UI -> X) :
  respects probe_event f getStoragePermissionStatus.
Proof.
  apply respects_try_catch.
  - apply respects_bind; [apply respects_navigator_storage_estimate; reflexivity |].
    intros estimate.
    apply respects_bind; [apply respects_navigator_storage_persisted; reflexivity |].
    intros p. apply respects_ret.
  - intros e. apply respects_bind; [apply respects_console; reflexivity |].
    intros _. apply respects_ret.
Qed.

Lemma respects_checkAvailableSpace {X : Type} (f : UI -> X) (required : Z) :
  respects probe_event f (checkAvailableSpace required).
Proof.
  apply respects_try_catch.
  - apply respects_bind; [apply respects_getStoragePermissionStatus |].
    intros status. apply respects_ret.
  - intros e. apply respects_bind; [apply respects_console; reflexivity |].
    intros _. apply respects_ret.
Qed.

Lemma checkAvailableSpace_never_throws (required : Z) :
  never_throws (checkAvailableSpace required).
Proof.
  apply never_throws_try_catch. intros e.
  apply never_throws_bind; [apply never_throws_emit | intros _; apply never_throws_ret].
Qed.

(** C5: whenever the host storage-accounting capability fails (the API is
    absent, or [estimate()] or [persisted()] rejects), the quota probe
    returns the zeroed snapshot
    [{persistent: false, quota: 0, usage: 0, available: 0}] and no error
    leaves the function. *)
Theorem getStoragePermissionStatus_zeroed_on_failure
  (s : State H) (Hfail : probe_fails s = true) :
  exists s', getStoragePermissionStatus s = (Ok zeroed_status, s')
             /\ localStorage s' = localStorage s.
Proof.
  unfold probe_fails in Hfail.
  unfold getStoragePermissionStatus, try_catch, bind, navigator_storage_estimate,
    navigator_storage_persisted, host_call, console, emit, ret.
  destruct (storage_in_navigator (host s)); cbn [negb orb] in Hfail.
  2: { eexists; split; reflexivity. }
  destruct (storage_estimate (host s)) as [[estimate | e] h1];
    cbn [fst snd is_thrown orb host] in *.
  2: { eexists; split; reflexivity. }
  destruct (storage_in_navigator h1); cbn [negb orb] in Hfail.
  2: { eexists; split; reflexivity. }
  destruct (storage_persisted h1) as [[p | e] h2]; cbn [fst is_thrown] in Hfail.
  - discriminate.
  - eexists; split; reflexivity.
Qed.

(** What [checkAvailableSpace] computes: it runs one probe and never reaches
    its own handler, because the probe never throws. *)
Lemma checkAvailableSpace_run (required : Z) (s : State H) :
  exists status s',
    getStoragePermissionStatus s = (Ok status, s')
    /\ checkAvailableSpace required s
       = (Ok {| hasEnoughSpace := available status >=? required;
                availableBytes := available status;
                requiredBytes := required;
                shortageBytes := if available status >=? required then 0
                                 else required - available status |}, s').
Proof.
  destruct (getStoragePermissionStatus_never_throws s) as [status [s' E]].
  exists status, s'. split; [exact E |].
  unfold checkAvailableSpace, try_catch, bind, ret. rewrite E. reflexivity.
Qed.

(** C1: for every [requiredBytes], the result of [checkAvailableSpace]
    satisfies [hasEnoughSpace == (shortageBytes == 0)], with [shortageBytes]
    equal to [max(0, requiredBytes - available)] for the [available] of the
    probe made by this very call. *)
Theorem checkAvailableSpace_decision (required : Z) (s : State H) :
  exists status s' c,
    getStoragePermissionStatus s = (Ok status, s')
    /\ checkAvailableSpace required s = (Ok c, s')
    /\ shortageBytes c = Z.max 0 (required - available status)
    /\ hasEnoughSpace c = (shortageBytes c =? 0)
    /\ availableBytes c = available status
    /\ requiredBytes c = required.
Proof.
  destruct (checkAvailableSpace_run required s) as (status & s' & Eprobe & Echeck).
  exists status, s'. eexists. split; [exact Eprobe |]. split; [exact Echeck |].
  cbn [shortageBytes hasEnoughSpace availableBytes requiredBytes].
  rewrite Z.geb_leb.
  destruct (Z.leb_spec required (available status)) as [Hle | Hgt].
  - split; [lia | split; [reflexivity | split; reflexivity]].
  - split; [lia | split; [| split; reflexivity]].
    symmetry. apply Z.eqb_neq. lia.
Qed.

End ServiceProperties.

(** ** The cleanup pass *)

Lemma skipn_nth_error {A : Type} (l : list A) (i : nat) (x : A) :
  nth_error l i = Some x -> skipn i l = x :: skipn (S i) l.
Proof.
  revert i. induction l as [| y l IH]; intros [| i] E; cbn in *; try discriminate.
  - congruence.
  - rewrite (IH i E). destruct l; reflexivity.
Qed.

Lemma collect_keys_filter (st : Storage) (fuel i : nat) (acc : list string) :
  (List.length st - i < fuel)%nat ->
  collect_keys st fuel i acc = acc ++ filter stale_key (map fst (skipn i st)).
Proof.
  revert i acc.
  induction fuel as [| fuel IH]; intros i acc Hfuel; [lia |].
  cbn [collect_keys].
  destruct (Nat.ltb_spec i (List.length st)) as [Hlt | Hge].
  - destruct (nth_error st i) as [[k v] |] eqn:E.
    + unfold store_key. rewrite E. cbn [option_map fst].
      rewrite IH by lia.
      rewrite (skipn_nth_error _ _ _ E). cbn [map filter fst].
      fold (stale_key k). destruct (stale_key k).
      * rewrite <- app_assoc. reflexivity.
      * reflexivity.
    + apply nth_error_None in E. lia.
  - rewrite skipn_all2 by lia. cbn. rewrite app_nil_r. reflexivity.
Qed.

(** The fuel given to the key scan is enough: it returns the stale keys of
    the store, in store order. *)
Lemma scan_localStorage_spec {H : Type} (s : State H) :
  scan_localStorage s = (Ok (filter stale_key (map fst (localStorage s))), s).
Proof.
  unfold scan_localStorage.
  rewrite collect_keys_filter by lia. reflexivity.
Qed.

Lemma count_all (P : Event -> bool) (t : list Event) :
  forallb P t = true -> count P t = List.length t.
Proof.
  unfold count. induction t as [| e t IH]; cbn [forallb filter]; intros Hall.
  - reflexivity.
  - apply andb_true_iff in Hall as [He Ht]. rewrite He. cbn. auto.
Qed.

Section CleanupProperties.

Context {H : Type} `{HostAPI H}.

Lemma cleanup_body_unfold (s : State H) :
  cleanup_body s =
  (if caches_in_window (host s) then
     bind (cacheNames <- host_call caches_keys EvCachesKeys ;;
           delete_stale_caches cacheNames 0) cleanup_tail s
   else cleanup_tail 0 s).
Proof.
  unfold cleanup_body, bind at 1, read_host.
  destruct (caches_in_window (host s)); reflexivity.
Qed.

Lemma delete_stale_caches_cases (cacheNames : list string) (freed : Z) (s : State H) :
  (exists n s' work,
      delete_stale_caches cacheNames freed s = (Ok n, s')
      /\ trace s' = trace s ++ work
      /\ forallb cache_deleted work = true
      /\ n = freed + MB * Z.of_nat (List.length work)
      /\ localStorage s' = localStorage s)
  \/ (exists e s' done bad,
         delete_stale_caches cacheNames freed s = (Thrown e, s')
         /\ trace s' = trace s ++ done ++ [bad]
         /\ forallb cache_deleted done = true
         /\ host_failure bad = true
         /\ localStorage s' = localStorage s).
Proof.
  revert freed s.
  induction cacheNames as [| cacheName rest IH]; intros freed s.
  - left. exists freed, s, []. cbn. rewrite app_nil_r. repeat split. unfold MB. lia.
  - cbn [delete_stale_caches filter]. fold (stale_cache cacheName).
    destruct (stale_cache cacheName); [| apply IH].
    unfold bind, host_call.
    destruct (caches_delete cacheName (host s)) as [[b | e] h1].
    + match goal with
      | |- context [delete_stale_caches rest ?f ?s1] =>
          destruct (IH f s1) as [(n & s' & work & E & T & W & N & L)
                                | (e & s' & done & bad & E & T & W & B & L)]
      end; cbn [trace localStorage] in *.
      * left. exists n, s', (EvCachesDelete cacheName (Ok b) :: work).
        split; [exact E |]. rewrite T, <- app_assoc.
        split; [reflexivity |]. split; [cbn; exact W |].
        split; [| exact L]. cbn [List.length]. unfold MB in *. lia.
      * right. exists e, s', (EvCachesDelete cacheName (Ok b) :: done), bad.
        split; [exact E |]. rewrite T, <- app_assoc.
        split; [reflexivity |]. split; [cbn; exact W |].
        split; [exact B | exact L].
    + right. exists e. eexists. exists [], (EvCachesDelete cacheName (Thrown e)).
      repeat split.
Qed.

Lemma remove_keys_run (keysToRemove : list string) (freed : Z) (s : State H) :
  exists s',
    remove_keys keysToRemove freed s
    = (Ok (freed + 1024 * Z.of_nat (List.length keysToRemove)), s')
    /\ trace s' = trace s ++ map EvRemoveItem keysToRemove
    /\ host s' = host s.
Proof.
  revert freed s.
  induction keysToRemove as [| key rest IH]; intros freed s.
  - exists s. cbn. rewrite app_nil_r, Z.add_0_r. auto.
  - cbn [remove_keys]. unfold bind, removeItem.
    match goal with
    | |- context [remove_keys rest ?f ?s1] => destruct (IH f s1) as [s' [E [T Hh]]]
    end.
    exists s'. rewrite E. cbn [trace host] in *.
    split; [f_equal; f_equal; cbn [List.length]; lia |].
    split; [| exact Hh].
    rewrite T, <- app_assoc. reflexivity.
Qed.

Lemma forallb_key_removed (keys : list string) :
  forallb key_removed (map EvRemoveItem keys) = true.
Proof. induction keys; cbn; auto. Qed.

Lemma cleanup_tail_run (freed : Z) (s : State H) :
  exists n s' removed,
    cleanup_tail freed s = (Ok n, s')
    /\ trace s' = trace s ++ removed ++ [EvConsole log (MsgCleaned n)]
    /\ forallb key_removed removed = true
    /\ n = freed + 1024 * Z.of_nat (List.length removed).
Proof.
  unfold cleanup_tail, bind at 1. rewrite scan_localStorage_spec.
  unfold bind at 1.
  destruct (remove_keys_run (filter stale_key (map fst (localStorage s))) freed s)
    as [s1 [E [T _]]].
  rewrite E. unfold bind, console, emit, ret. cbn [trace].
  eexists _, _, (map EvRemoveItem _).
  split; [reflexivity |]. rewrite T, <- app_assoc.
  split; [reflexivity |]. split; [apply forallb_key_removed |].
  rewrite length_map. reflexivity.
Qed.

End CleanupProperties.

(** Equations between traces hold up to re-association of [++]. *)
Ltac trace_eq :=
  repeat first [rewrite <- app_assoc | progress cbn [app]]; reflexivity.

Section CleanupOutcome.

Context {H : Type} `{HostAPI H}.

Lemma cleanup_body_cases (s : State H) :
  (exists n s' work,
      cleanup_body s = (Ok n, s')
      /\ trace s' = trace s ++ work ++ [EvConsole log (MsgCleaned n)]
      /\ forallb cleanup_work work = true
      /\ existsb host_failure work = false
      /\ n = MB * Z.of_nat (count cache_deleted work)
             + 1024 * Z.of_nat (count key_removed work))
  \/ (exists e s' done bad,
         cleanup_body s = (Thrown e, s')
         /\ trace s' = trace s ++ done ++ [bad]
         /\ forallb cleanup_work done = true
         /\ existsb host_failure done = false
         /\ host_failure bad = true
         /\ count key_removed done = 0%nat
         /\ localStorage s' = localStorage s).
Proof.
  assert (Hdel_work : forall e, cache_deleted e = true -> cleanup_work e = true)
    by (intros [] E; try discriminate; reflexivity).
  assert (Hrem_work : forall e, key_removed e = true -> cleanup_work e = true)
    by (intros [] E; try discriminate; reflexivity).
  assert (Hdel_fail : forall e, cache_deleted e = true -> host_failure e = false)
    by (intros [| | | | ? [] | | | | | | | | |] E; try discriminate; reflexivity).
  assert (Hrem_fail : forall e, key_removed e = true -> host_failure e = false)
    by (intros [] E; try discriminate; reflexivity).
  assert (Hdel_rem : forall e, cache_deleted e = true -> key_removed e = false)
    by (intros [] E; try discriminate; reflexivity).
  assert (Hrem_del : forall e, key_removed e = true -> cache_deleted e = false)
    by (intros [] E; try discriminate; reflexivity).
  rewrite cleanup_body_unfold.
  destruct (caches_in_window (host s)).
  - unfold bind, host_call.
    destruct (caches_keys (host s)) as [[cacheNames | e] h1].
    + match goal with
      | |- context [delete_stale_caches cacheNames 0 ?s1] =>
          destruct (delete_stale_caches_cases cacheNames 0 s1)
            as [(n & s1' & work & E & T & W & N & L)
               | (e & s1' & done & bad & E & T & W & B & L)]
      end; rewrite E; cbn [trace localStorage] in *.
      * left.
        destruct (cleanup_tail_run n s1') as (n' & s' & removed & E' & T' & R & N').
        exists n', s', (EvCachesKeys (Ok cacheNames) :: work ++ removed).
        split; [exact E' |].
        split; [rewrite T', T; trace_eq |].
        split; [cbn; rewrite forallb_app,
                  (forallb_weaken _ _ _ Hdel_work W),
                  (forallb_weaken _ _ _ Hrem_work R); reflexivity |].
        split; [cbn; rewrite existsb_app,
                  (existsb_none _ _ _ Hdel_fail W),
                  (existsb_none _ _ _ Hrem_fail R); reflexivity |].
        change (EvCachesKeys (Ok cacheNames) :: work ++ removed)
          with ([EvCachesKeys (Ok cacheNames)] ++ work ++ removed).
        rewrite !count_app.
        rewrite (count_all _ _ W), (count_all _ _ R).
        rewrite (count_none _ _ _ Hrem_del R), (count_none _ _ _ Hdel_rem W).
        cbn [count filter cache_deleted key_removed List.length].
        subst n. lia.
      * right. exists e, s1', (EvCachesKeys (Ok cacheNames) :: done), bad.
        split; [reflexivity |].
        split; [rewrite T; trace_eq |].
        split; [cbn; apply (forallb_weaken _ _ _ Hdel_work W) |].
        split; [cbn; apply (existsb_none _ _ _ Hdel_fail W) |].
        split; [exact B |].
        split; [| exact L].
        change (EvCachesKeys (Ok cacheNames) :: done)
          with ([EvCachesKeys (Ok cacheNames)] ++ done).
        rewrite count_app, (count_none _ _ _ Hdel_rem W). reflexivity.
    + right. exists e. eexists. exists [], (EvCachesKeys (Thrown e)).
      repeat split.
  - left.
    destruct (cleanup_tail_run 0 s) as (n' & s' & removed & E' & T' & R & N').
    exists n', s', removed.
    split; [exact E' |]. split; [exact T' |].
    split; [apply (forallb_weaken _ _ _ Hrem_work R) |].
    split; [apply (existsb_none _ _ _ Hrem_fail R) |].
    rewrite (count_all _ _ R), (count_none _ _ _ Hrem_del R). lia.
Qed.

Lemma respects_delete_stale_caches {X : Type} (f : UI -> X)
  (cacheNames : list string) (freed : Z) :
  respects cleanup_event f (delete_stale_caches cacheNames freed).
Proof.
  revert freed.
  induction cacheNames as [| cacheName rest IH]; intros freed;
    cbn [delete_stale_caches].
  - apply respects_ret.
  - destruct (includes cacheName "old" || includes cacheName "temp"); [| apply IH].
    apply respects_bind; [apply respects_host_call; reflexivity |].
    intros _. apply IH.
Qed.

Lemma respects_remove_keys {X : Type} (f : UI -> X)
  (keysToRemove : list string) (freed : Z) :
  respects cleanup_event f (@remove_keys H keysToRemove freed).
Proof.
  revert freed.
  induction keysToRemove as [| key rest IH]; intros freed; cbn [remove_keys].
  - apply respects_ret.
  - apply respects_bind; [apply respects_removeItem; reflexivity |].
    intros _. apply IH.
Qed.

Lemma respects_cleanup_body {X : Type} (f : UI -> X) :
  respects cleanup_event f cleanup_body.
Proof.
  unfold cleanup_body.
  apply respects_bind; [apply respects_read_host |]. intros has_caches.
  apply respects_bind.
  - destruct has_caches; [| apply respects_ret].
    apply respects_bind; [apply respects_host_call; reflexivity |].
    intros cacheNames. apply respects_delete_stale_caches.
  - intros freed. apply respects_bind; [intros s0; apply steps_refl |].
    intros keys. apply respects_bind; [apply respects_remove_keys |].
    intros freed'. apply respects_bind; [apply respects_console; reflexivity |].
    intros _. apply respects_ret.
Qed.

Lemma respects_cleanupOldData {X : Type} (f : UI -> X) :
  respects cleanup_event f cleanupOldData.
Proof.
  apply respects_try_catch; [apply respects_cleanup_body |].
  intros e. apply respects_bind; [apply respects_console; reflexivity |].
  intros _. apply respects_ret.
Qed.

Lemma cleanupOldData_never_throws : never_throws cleanupOldData.
Proof.
  apply never_throws_try_catch. intros e.
  apply never_throws_bind; [apply never_throws_emit | intros _; apply never_throws_ret].
Qed.

(** Every cleanup pass appends cleanup events only, and its final console
    statement exactly once. *)
Lemma cleanupOldData_trace (s : State H) :
  exists new,
    trace (snd (cleanupOldData s)) = trace s ++ new
    /\ forallb cleanup_event new = true
    /\ count cleanup_end new = 1%nat
    /\ ui (snd (cleanupOldData s)) = ui s.
Proof.
  assert (Hwork : forall e, cleanup_work e = true -> cleanup_event e = true)
    by (intros [] E; try discriminate; reflexivity).
  assert (Hend : forall e, cleanup_work e = true -> cleanup_end e = false)
    by (intros [] E; try discriminate; reflexivity).
  assert (Hfail : forall e, host_failure e = true -> cleanup_work e = true)
    by (intros [| | | [] | ? [] | | | | | | | | |] E; try discriminate; reflexivity).
  assert (Hui : ui (snd (cleanup_body s)) = ui s)
    by apply (respects_cleanup_body (fun u => u) s).
  unfold cleanupOldData, try_catch in *.
  destruct (cleanup_body_cases s)
    as [(n & s' & work & E & T & W & F & N)
       | (e & s' & done & bad & E & T & W & F & B & K & L)];
    rewrite E in *; cbn [snd] in *.
  - exists (work ++ [EvConsole log (MsgCleaned n)]).
    split; [exact T |].
    split; [rewrite forallb_app, (forallb_weaken _ _ _ Hwork W); reflexivity |].
    split; [| exact Hui].
    rewrite count_app, (count_none _ _ _ Hend W). reflexivity.
  - unfold bind, console, emit, ret. cbn [snd trace ui].
    exists (done ++ [bad; EvConsole err (MsgCleanupFailed e)]).
    split; [rewrite T; trace_eq |].
    split; [rewrite forallb_app, (forallb_weaken _ _ _ Hwork W); cbn;
            rewrite (Hwork _ (Hfail _ B)); reflexivity |].
    split; [| exact Hui].
    rewrite count_app, (count_none _ _ _ Hend W).
    unfold count. cbn [filter]. rewrite (Hend _ (Hfail _ B)). reflexivity.
Qed.

(** C3, as amended: [cleanupOldData] never throws, but it has one handler
    around the whole pass.  When enumerating the cache buckets or deleting
    one of them fails, the pass stops at that call (it is the last host call
    of the pass, and no key has been removed), the failure is logged and 0 is
    returned whatever was deleted before it.  When no call fails, the result
    is 1 MiB for every deleted bucket plus 1 KiB for every removed key. *)
Theorem cleanupOldData_single_handler (s : State H) :
  exists n s',
    cleanupOldData s = (Ok n, s')
    /\ if existsb host_failure (events_since s s') then
         n = 0
         /\ localStorage s' = localStorage s
         /\ exists done bad e,
              events_since s s' = done ++ [bad; EvConsole err (MsgCleanupFailed e)]
              /\ host_failure bad = true
              /\ existsb host_failure done = false
              /\ count key_removed done = 0%nat
       else
         n = MB * Z.of_nat (count cache_deleted (events_since s s'))
             + 1024 * Z.of_nat (count key_removed (events_since s s')).
Proof.
  unfold cleanupOldData, try_catch.
  destruct (cleanup_body_cases s)
    as [(n & s' & work & E & T & W & F & N)
       | (e & s' & done & bad & E & T & W & F & B & K & L)];
    rewrite E.
  - exists n, s'. split; [reflexivity |].
    rewrite (events_since_app _ _ _ T).
    rewrite existsb_app, F. cbn [existsb host_failure orb].
    rewrite !count_app. cbn [count filter cache_deleted key_removed List.length].
    rewrite !Nat.add_0_r. exact N.
  - unfold bind, console, emit, ret.
    eexists 0, _. split; [reflexivity |].
    match goal with
    | |- context [events_since s ?s2] =>
        assert (T2 : trace s2 = trace s ++ done ++ [bad; EvConsole err (MsgCleanupFailed e)])
          by (cbn [trace]; rewrite T; trace_eq);
        rewrite (events_since_app s s2 _ T2)
    end.
    rewrite existsb_app. cbn [existsb]. rewrite B, orb_true_r.
    split; [reflexivity |]. split; [exact L |].
    exists done, bad, e. auto.
Qed.

End CleanupOutcome.

(** C3, counterexample to the claim as stated.  In [state0] the stale
    buckets are "old-pages", "temp-audio" and "old-fonts", and deleting
    "temp-audio" rejects.  The failure is not skipped: the pass ends there.
    "old-pages" was deleted, yet 0 bytes are reported; "old-fonts" is never
    tried; and the stale key "temp-draft" stays in [localStorage]. *)
Lemma cleanupOldData_failure_aborts_pass :
  fst (cleanupOldData state0) = Ok 0
  /\ existsb (delete_attempt "old-pages") (trace (snd (cleanupOldData state0))) = true
  /\ existsb (delete_attempt "old-fonts") (trace (snd (cleanupOldData state0))) = false
  /\ count key_removed (trace (snd (cleanupOldData state0))) = 0%nat
  /\ getItem "temp-draft" (localStorage (snd (cleanupOldData state0))) = Some "x".
Proof. vm_compute. repeat split. Qed.

(** With nothing locked the same pass deletes the three stale buckets and
    the two stale keys and reports 3 MiB + 2 KiB. *)
Example cleanupOldData_unlocked :
  fst (cleanupOldData (with_host browser_unlocked state0)) = Ok (3 * MB + 2 * 1024)
  /\ localStorage (snd (cleanupOldData (with_host browser_unlocked state0)))
     = [("theme", "dark")].
Proof. vm_compute. split; reflexivity. Qed.

(** ** Cleanup-then-retry *)

Section RetryProperties.

Context {H : Type} `{HostAPI H}.

Lemma probe_not_cleanup (e : Event) : probe_event e = true -> cleanup_event e = false.
Proof. destruct e as [| | | | | | | [] [] | | | | | |]; cbn; congruence. Qed.

Lemma probe_not_cleanup_end (e : Event) : probe_event e = true -> cleanup_end e = false.
Proof. destruct e as [| | | | | | | [] [] | | | | | |]; cbn; congruence. Qed.

Lemma checkAvailableSpace_trace (required : Z) (s s1 : State H) (c : SpaceCheck) :
  checkAvailableSpace required s = (Ok c, s1) ->
  exists new, trace s1 = trace s ++ new /\ forallb probe_event new = true.
Proof.
  intros E.
  destruct (respects_checkAvailableSpace (fun _ => tt) required s) as [Hnew _].
  rewrite E in Hnew. exact Hnew.
Qed.

(** C4: when the initial space check reports sufficient space
    ([available >= requiredBytes]), [canDownloadWithCleanup] returns
    [canDownload = true] and [needsCleanup = false] and nothing of a cleanup
    pass happens; otherwise it runs [cleanupOldData] once, checks the space
    once more and returns: exactly one cleanup pass took place. *)
Theorem canDownloadWithCleanup_cleans_at_most_once (required : Z) (s : State H) :
  exists c s1,
    checkAvailableSpace required s = (Ok c, s1)
    /\ hasEnoughSpace c = (availableBytes c >=? required)
    /\ if hasEnoughSpace c then
         canDownloadWithCleanup required s
         = (Ok {| canDownload := true;
                  needsCleanup := false;
                  availableAfterCleanup := availableBytes c |}, s1)
         /\ existsb cleanup_event (events_since s s1) = false
       else
         exists freed s2 c2 s3,
           cleanupOldData s1 = (Ok freed, s2)
           /\ checkAvailableSpace required s2 = (Ok c2, s3)
           /\ canDownloadWithCleanup required s
              = (Ok {| canDownload := hasEnoughSpace c2;
                       needsCleanup := true;
                       availableAfterCleanup := availableBytes c2 |}, s3)
           /\ count cleanup_end (events_since s s3) = 1%nat.
Proof.
  destruct (checkAvailableSpace_run required s) as (status & s1 & _ & Echeck).
  eexists _, s1. split; [exact Echeck |].
  destruct (checkAvailableSpace_trace _ _ _ _ Echeck) as (new1 & T1 & F1).
  split; [reflexivity |].
  cbn [hasEnoughSpace availableBytes].
  unfold canDownloadWithCleanup, bind. rewrite Echeck.
  cbn [hasEnoughSpace availableBytes].
  destruct (available status >=? required).
  - split; [reflexivity |].
    rewrite (events_since_app _ _ _ T1).
    apply (existsb_none _ _ _ probe_not_cleanup F1).
  - destruct (cleanupOldData_never_throws s1) as (freed & s2 & Eclean).
    destruct (checkAvailableSpace_never_throws required s2) as (c2 & s3 & Echeck2).
    exists freed, s2, c2, s3.
    rewrite Eclean, Echeck2. unfold ret.
    repeat (split; [reflexivity |]).
    destruct (cleanupOldData_trace s1) as (newc & Tc & _ & Cc & _).
    rewrite Eclean in Tc. cbn [snd] in Tc.
    destruct (checkAvailableSpace_trace _ _ _ _ Echeck2) as (new2 & T2 & F2).
    assert (T : trace s3 = trace s ++ new1 ++ newc ++ new2)
      by (rewrite T2, Tc, T1; trace_eq).
    rewrite (events_since_app _ _ _ T), !count_app, Cc.
    rewrite (count_none _ _ _ probe_not_cleanup_end F1).
    rewrite (count_none _ _ _ probe_not_cleanup_end F2).
    reflexivity.
Qed.

(** C10: [canDownloadWithCleanup] returns [needsCleanup = true] exactly when
    its initial space check reported insufficient space, whatever the second
    check says. *)
Theorem canDownloadWithCleanup_needsCleanup (required : Z) (s : State H) :
  exists c s1 d s',
    checkAvailableSpace required s = (Ok c, s1)
    /\ canDownloadWithCleanup required s = (Ok d, s')
    /\ needsCleanup d = negb (hasEnoughSpace c).
Proof.
  destruct (checkAvailableSpace_never_throws required s) as (c & s1 & Echeck).
  exists c, s1.
  unfold canDownloadWithCleanup, bind. rewrite Echeck.
  destruct (hasEnoughSpace c).
  - eexists _, _. repeat split.
  - destruct (cleanupOldData_never_throws s1) as (freed & s2 & Eclean).
    destruct (checkAvailableSpace_never_throws required s2) as (c2 & s3 & Echeck2).
    rewrite Eclean, Echeck2. unfold ret.
    eexists _, _. repeat split.
Qed.

End RetryProperties.

(** Both outcomes of the retry occur with [needsCleanup = true]: 4 MB fit
    after the cleanup of [browser_unlocked] (10 MB quota, 8 MB used, 3 MB
    reclaimed), 6 MB do not. *)
Example canDownloadWithCleanup_retry_succeeds :
  fst (canDownloadWithCleanup (4 * MB) (with_host browser_unlocked state0))
  = Ok {| canDownload := true; needsCleanup := true;
          availableAfterCleanup := 5 * MB |}.
Proof. vm_compute. reflexivity. Qed.

Example canDownloadWithCleanup_retry_fails :
  fst (canDownloadWithCleanup (6 * MB) (with_host browser_unlocked state0))
  = Ok {| canDownload := false; needsCleanup := true;
          availableAfterCleanup := 5 * MB |}.
Proof. vm_compute. reflexivity. Qed.

Lemma getStoragePermissionStatus_zeroed_on_failure_witness :
  probe_fails (with_host browser_legacy state0) = true
  /\ exists s',
       getStoragePermissionStatus (with_host browser_legacy state0)
       = (Ok zeroed_status, s')
       /\ localStorage s' = localStorage (with_host browser_legacy state0).
Proof.
  split; [reflexivity |].
  apply getStoragePermissionStatus_zeroed_on_failure. reflexivity.
Defined.

(** ** The durable-storage grant *)

Lemma getItem_store_set_same (key value : string) (st : Storage) :
  getItem key (store_set key value st) = Some value.
Proof.
  induction st as [| [k v] st IH]; cbn.
  - rewrite String.eqb_refl. reflexivity.
  - destruct (String.eqb_spec k key) as [-> | Hne]; cbn.
    + rewrite String.eqb_refl. reflexivity.
    + destruct (String.eqb_spec k key); [contradiction | exact IH].
Qed.

Lemma getItem_store_set_other (key key' value : string) (st : Storage) :
  key' <> key ->
  getItem key' (store_set key value st) = getItem key' st.
Proof.
  intros Hne.
  induction st as [| [k v] st IH]; cbn.
  - destruct (String.eqb_spec key key'); [congruence | reflexivity].
  - destruct (String.eqb_spec k key) as [-> | Hk]; cbn.
    + destruct (String.eqb_spec key key'); [congruence | reflexivity].
    + destruct (String.eqb_spec k key'); [reflexivity | exact IH].
Qed.

Section GrantProperties.

Context {H : Type} `{HostAPI H}.

(** C7: if durable storage is already persistent when
    [requestPersistentStorage] is called, it returns [true]; the only host
    call it makes is the [persisted()] query, so no grant request is issued,
    and [localStorage] is not written. *)
Theorem requestPersistentStorage_short_circuit
  (s : State H) (Hpersisted : already_persistent s = true) :
  exists s',
    requestPersistentStorage s = (Ok true, s')
    /\ events_since s s' = [EvPersisted (Ok true); EvConsole log MsgAlreadyPersistent]
    /\ existsb grant_request (events_since s s') = false
    /\ localStorage s' = localStorage s.
Proof.
  unfold already_persistent in Hpersisted.
  apply andb_true_iff in Hpersisted as [Hsup Hans].
  pose proof Hsup as Hnav. apply andb_true_iff in Hnav as [Hnav _].
  unfold requestPersistentStorage, try_catch, bind at 1, isStorageAPISupported,
    read_host.
  rewrite Hsup. cbn [negb].
  unfold bind at 1, navigator_storage_persisted, host_call. rewrite Hnav.
  destruct (storage_persisted (host s)) as [[[|] | e] h1]; cbn [fst] in Hans;
    try discriminate.
  unfold bind, console, emit, ret. cbn [host localStorage ui trace].
  eexists. split; [reflexivity |].
  match goal with
  | |- events_since s ?s2 = ?new /\ _ =>
      assert (T : trace s2 = trace s ++ new) by (cbn [trace]; trace_eq);
      rewrite (events_since_app s s2 _ T)
  end.
  repeat split.
Qed.

(** C6, as amended: when [requestPersistentStorage] issues the grant request
    and the host answers it, the boolean outcome is written to
    "storage-permission-granted" ("true" or "false") and returned; the
    timestamp "storage-permission-date" is written only when the grant was
    given, and after a refusal that entry is what it was before the call.
    (The hypotheses are the path on which the request is issued and
    answered, with [localStorage] accepting the writes.) *)
Theorem requestPersistentStorage_records_outcome
  (s : State H) (granted : bool) (h1 h2 : H)
  (Hsupported : storage_in_navigator (host s) && persist_in_storage (host s) = true)
  (Hnot_yet : storage_persisted (host s) = (Ok false, h1))
  (Hsupported1 : storage_in_navigator h1 && persist_in_storage h1 = true)
  (Hanswer : storage_persist h1 = (Ok granted, h2))
  (Hwrite1 : setItem_accepts h2 "storage-permission-granted"
                             (if granted then "true" else "false") = true)
  (Hwrite2 : granted = true ->
             setItem_accepts h2 "storage-permission-date" (date_now_iso h2) = true) :
  exists s',
    requestPersistentStorage s = (Ok granted, s')
    /\ existsb grant_request (events_since s s') = true
    /\ getItem "storage-permission-granted" (localStorage s')
       = Some (if granted then "true" else "false")
    /\ getItem "storage-permission-date" (localStorage s')
       = if granted then Some (date_now_iso h2)
         else getItem "storage-permission-date" (localStorage s).
Proof.
  pose proof Hsupported as Hnav. apply andb_true_iff in Hnav as [Hnav _].
  unfold requestPersistentStorage, try_catch, bind at 1, isStorageAPISupported,
    read_host.
  rewrite Hsupported. cbn [negb].
  unfold bind at 1, navigator_storage_persisted, host_call.
  rewrite Hnav, Hnot_yet.
  unfold bind at 1, navigator_storage_persist, host_call. cbn [host].
  rewrite Hsupported1, Hanswer.
  destruct granted.
  - specialize (Hwrite2 eq_refl).
    unfold bind, console, emit, setItem, read_host, ret.
    cbn [host localStorage ui trace]. rewrite Hwrite1.
    cbn [host localStorage ui trace]. rewrite Hwrite2.
    cbn [host localStorage ui trace].
    eexists. split; [reflexivity |].
    match goal with
    | |- existsb _ (events_since s ?s2) = _ /\ _ =>
        assert (T : exists new, trace s2 = trace s ++ EvPersisted (Ok false)
                                            :: EvPersist (Ok true) :: new)
          by (eexists; cbn [trace]; trace_eq);
        destruct T as [new T]; rewrite (events_since_app s s2 _ T)
    end.
    split; [reflexivity |]. cbn [localStorage].
    split.
    + rewrite getItem_store_set_other by discriminate.
      apply getItem_store_set_same.
    + apply getItem_store_set_same.
  - unfold bind, console, emit, setItem, read_host, ret.
    cbn [host localStorage ui trace]. rewrite Hwrite1.
    eexists. split; [reflexivity |].
    match goal with
    | |- existsb _ (events_since s ?s2) = _ /\ _ =>
        assert (T : exists new, trace s2 = trace s ++ EvPersisted (Ok false)
                                            :: EvPersist (Ok false) :: new)
          by (eexists; cbn [trace]; trace_eq);
        destruct T as [new T]; rewrite (events_since_app s s2 _ T)
    end.
    split; [reflexivity |]. cbn [localStorage].
    split.
    + apply getItem_store_set_same.
    + apply getItem_store_set_other. discriminate.
Qed.

End GrantProperties.

Lemma requestPersistentStorage_short_circuit_witness :
  already_persistent (with_host browser_persisted state0) = true
  /\ exists s',
       requestPersistentStorage (with_host browser_persisted state0) = (Ok true, s')
       /\ events_since (with_host browser_persisted state0) s'
          = [EvPersisted (Ok true); EvConsole log MsgAlreadyPersistent]
       /\ existsb grant_request (events_since (with_host browser_persisted state0) s')
          = false
       /\ localStorage s' = localStorage (with_host browser_persisted state0).
Proof.
  split; [reflexivity |].
  apply requestPersistentStorage_short_circuit. reflexivity.
Defined.

(** C6, counterexample to the claim as stated.  In [state0] storage is not
    persisted and the user refuses: the grant request is issued and the
    outcome "false" is recorded, but no timestamp is. *)
Lemma requestPersistentStorage_denied_no_timestamp :
  fst (requestPersistentStorage state0) = Ok false
  /\ existsb grant_request (trace (snd (requestPersistentStorage state0))) = true
  /\ getItem "storage-permission-granted"
             (localStorage (snd (requestPersistentStorage state0))) = Some "false"
  /\ getItem "storage-permission-date"
             (localStorage (snd (requestPersistentStorage state0))) = None.
Proof. vm_compute. repeat split. Qed.

Lemma requestPersistentStorage_records_outcome_witness :
  exists s',
    requestPersistentStorage (with_host browser_granting state0) = (Ok true, s')
    /\ existsb grant_request (events_since (with_host browser_granting state0) s') = true
    /\ getItem "storage-permission-granted" (localStorage s') = Some "true"
    /\ getItem "storage-permission-date" (localStorage s')
       = Some "2024-01-01T00:00:00.000Z".
Proof.
  exact (requestPersistentStorage_records_outcome
           (with_host browser_granting state0) true
           browser_granting browser_persisted
           eq_refl eq_refl eq_refl eq_refl eq_refl (fun _ => eq_refl)).
Defined.

(** ** The pre-flight of the download manager *)

Section ComponentProperties.

Context {H : Type} `{HostAPI H} `{OfflineStorageService H}.

Lemma probe_is_service (e : Event) : probe_event e = true -> service_event e = true.
Proof. unfold service_event. intros ->. reflexivity. Qed.

Lemma cleanup_is_service (e : Event) : cleanup_event e = true -> service_event e = true.
Proof. unfold service_event. intros ->. apply orb_true_r. Qed.

Lemma service_is_preflight (e : Event) : service_event e = true -> preflight_event e = true.
Proof. destruct e; cbn; congruence. Qed.

Lemma preflight_not_download (e : Event) :
  preflight_event e = true -> download_started e = false.
Proof. destruct e; cbn; congruence. Qed.

Lemma probe_not_toast (e : Event) : probe_event e = true -> is_toast e = false.
Proof. destruct e; cbn; congruence. Qed.

Lemma canDownloadWithCleanup_never_throws (required : Z) :
  never_throws (canDownloadWithCleanup required).
Proof.
  apply never_throws_bind; [apply checkAvailableSpace_never_throws |].
  intros c. destruct (hasEnoughSpace c); [apply never_throws_ret |].
  apply never_throws_bind; [apply cleanupOldData_never_throws |]. intros freed.
  apply never_throws_bind; [apply checkAvailableSpace_never_throws |]. intros c2.
  apply never_throws_ret.
Qed.

Lemma respects_canDownloadWithCleanup {X : Type} (f : UI -> X) (required : Z) :
  respects service_event f (canDownloadWithCleanup required).
Proof.
  apply respects_bind.
  { eapply respects_weaken; [exact probe_is_service | apply respects_checkAvailableSpace]. }
  intros c. destruct (hasEnoughSpace c); [apply respects_ret |].
  apply respects_bind.
  { eapply respects_weaken; [exact cleanup_is_service | apply respects_cleanupOldData]. }
  intros freed. apply respects_bind.
  { eapply respects_weaken; [exact probe_is_service | apply respects_checkAvailableSpace]. }
  intros c2. apply respects_ret.
Qed.

Lemma check_persistence_never_throws : never_throws check_persistence.
Proof.
  apply never_throws_bind; [apply getStoragePermissionStatus_never_throws |].
  intros status. destruct (negb (persistent status)); [| apply never_throws_ret].
  apply never_throws_bind; [apply never_throws_set_ui | intros _; apply never_throws_ret].
Qed.

Lemma respects_check_persistence :
  respects probe_event (with_storagePermissionOpen false) check_persistence.
Proof.
  apply respects_bind; [apply respects_getStoragePermissionStatus |].
  intros status. destruct (negb (persistent status)); [| apply respects_ret].
  apply respects_bind; [apply respects_set_ui; reflexivity |].
  intros _. apply respects_ret.
Qed.

(** The permission step lets the download proceed only after a
    [persisted()] query answered [true]; when it stops the download, the
    permission dialog is open. *)
Lemma check_persistence_outcome (s s1 : State H) (b : bool) :
  check_persistence s = (Ok b, s1) ->
  if b then existsb reports_persisted (events_since s s1) = true
  else storagePermissionOpen (ui s1) = true.
Proof.
  unfold check_persistence, getStoragePermissionStatus, try_catch,
    navigator_storage_estimate, navigator_storage_persisted, host_call,
    bind, console, emit, set_ui, ret.
  destruct (storage_in_navigator (host s)).
  2: { cbn. intros E. injection E as <- <-. reflexivity. }
  destruct (storage_estimate (host s)) as [[estimate | e] h1]; cbn [host].
  2: { cbn. intros E. injection E as <- <-. reflexivity. }
  destruct (storage_in_navigator h1).
  2: { cbn. intros E. injection E as <- <-. reflexivity. }
  destruct (storage_persisted h1) as [[[|] | e] h2]; cbn; intros E;
    injection E as <- <-; try reflexivity.
  match goal with
  | |- existsb _ (events_since s ?s2) = _ =>
      assert (T : exists new, trace s2 = trace s ++ new
                              /\ existsb reports_persisted new = true)
        by (eexists; split; [cbn [trace]; trace_eq | reflexivity]);
      destruct T as (new & T & Hp); rewrite (events_since_app s s2 _ T)
  end.
  exact Hp.
Qed.

Lemma checkStorageBeforeDownload_never_throws (r : UI) :
  never_throws (checkStorageBeforeDownload r).
Proof.
  unfold checkStorageBeforeDownload.
  destruct (List.length (selectedChapters r) =? 0)%nat.
  { apply never_throws_bind; [apply never_throws_emit | intros _; apply never_throws_ret]. }
  destruct (negb (isOnline r)).
  { apply never_throws_bind; [apply never_throws_emit | intros _; apply never_throws_ret]. }
  apply never_throws_bind; [apply checkAvailableSpace_never_throws |]. intros c.
  destruct (negb (hasEnoughSpace c)); [| apply check_persistence_never_throws].
  apply never_throws_bind; [apply canDownloadWithCleanup_never_throws |]. intros d.
  destruct (negb (canDownload d)); [| apply check_persistence_never_throws].
  apply never_throws_bind; [apply never_throws_emit |]. intros _.
  apply never_throws_bind; [apply never_throws_set_ui | intros _; apply never_throws_ret].
Qed.

Lemma respects_checkStorageBeforeDownload (r : UI) :
  respects preflight_event (with_storagePermissionOpen false)
           (checkStorageBeforeDownload r).
Proof.
  assert (Hprobe : forall e, probe_event e = true -> preflight_event e = true)
    by (intros e He; apply service_is_preflight, probe_is_service, He).
  unfold checkStorageBeforeDownload.
  destruct (List.length (selectedChapters r) =? 0)%nat.
  { apply respects_bind; [apply respects_emit; reflexivity | intros _; apply respects_ret]. }
  destruct (negb (isOnline r)).
  { apply respects_bind; [apply respects_emit; reflexivity | intros _; apply respects_ret]. }
  apply respects_bind.
  { eapply respects_weaken; [exact Hprobe | apply respects_checkAvailableSpace]. }
  intros c.
  assert (Hperm : respects preflight_event (with_storagePermissionOpen false)
                           check_persistence)
    by (eapply respects_weaken; [exact Hprobe | apply respects_check_persistence]).
  destruct (negb (hasEnoughSpace c)); [| exact Hperm].
  apply respects_bind.
  { eapply respects_weaken; [exact service_is_preflight
                            | apply respects_canDownloadWithCleanup]. }
  intros d. destruct (negb (canDownload d)); [| exact Hperm].
  apply respects_bind; [apply respects_emit; reflexivity |]. intros _.
  apply respects_bind; [apply respects_set_ui; reflexivity |]. intros _.
  apply respects_ret.
Qed.

(** The pre-flight answers [true] only after a [persisted()] query of this
    very run answered [true]. *)
Lemma checkStorageBeforeDownload_true (r : UI) (s s1 : State H) :
  checkStorageBeforeDownload r s = (Ok true, s1) ->
  existsb reports_persisted (events_since s s1) = true.
Proof.
  assert (Hperm : forall s0 : State H,
             (exists pre, trace s0 = trace s ++ pre) ->
             check_persistence s0 = (Ok true, s1) ->
             existsb reports_persisted (events_since s s1) = true).
  { intros s0 [pre Tpre] E.
    pose proof (check_persistence_outcome _ _ _ E) as Hp. cbn in Hp.
    destruct (respects_check_persistence s0) as [(new & T & _) _].
    rewrite E in T. cbn [snd] in T.
    rewrite (events_since_app _ _ _ T) in Hp.
    assert (T' : trace s1 = trace s ++ pre ++ new) by (rewrite T, Tpre; trace_eq).
    rewrite (events_since_app _ _ _ T'), existsb_app, Hp. apply orb_true_r. }
  unfold checkStorageBeforeDownload.
  destruct (List.length (selectedChapters r) =? 0)%nat.
  { cbn. discriminate. }
  destruct (negb (isOnline r)).
  { cbn. discriminate. }
  unfold bind at 1.
  destruct (checkAvailableSpace (estimatedDownloadSize r) s) as [[c | e] sa] eqn:Ec.
  2: discriminate.
  destruct (checkAvailableSpace_trace _ _ _ _ Ec) as (newa & Ta & _).
  destruct (negb (hasEnoughSpace c)).
  2: { apply Hperm. exists newa. exact Ta. }
  unfold bind at 1.
  destruct (canDownloadWithCleanup (estimatedDownloadSize r) sa) as [[d | e] sb] eqn:Ed.
  2: discriminate.
  destruct (respects_canDownloadWithCleanup (fun _ => tt) (estimatedDownloadSize r) sa)
    as [(newb & Tb & _) _].
  rewrite Ed in Tb. cbn [snd] in Tb.
  destruct (negb (canDownload d)).
  { cbn. discriminate. }
  apply Hperm. exists (newa ++ newb). rewrite Tb, Ta. trace_eq.
Qed.

Lemma service_shows_no_toast (e : Event) :
  service_event e = true -> is_toast e = false.
Proof. destruct e; cbn; congruence. Qed.

(** How the pre-flight signals that it stops a well-formed request: the
    permission dialog is opened on every such path, and a toast is shown
    only when the space does not suffice even after the cleanup. *)
Lemma checkStorageBeforeDownload_stop_signal (r : UI) (s s1 : State H) :
  checkStorageBeforeDownload r s = (Ok false, s1) ->
  (precondition_fails r = false -> storagePermissionOpen (ui s1) = true)
  /\ (space_suffices r s = true ->
      existsb is_toast (events_since s s1) = false).
Proof.
  unfold checkStorageBeforeDownload, space_suffices, precondition_fails.
  destruct (List.length (selectedChapters r) =? 0)%nat.
  { intros _. split; intros Hc; cbn in Hc; discriminate Hc. }
  destruct (isOnline r); cbn [negb orb andb].
  2: { intros _. split; intros Hc; discriminate Hc. }
  unfold bind at 1.
  destruct (checkAvailableSpace (estimatedDownloadSize r) s) as [[c | e] sa] eqn:Ec.
  2: discriminate.
  destruct (checkAvailableSpace_trace _ _ _ _ Ec) as (newa & Ta & Fa).
  pose proof (forallb_weaken _ _ _ probe_is_service Fa) as Fa'.
  assert (Hperm : forall (s0 : State H) pre,
             trace s0 = trace s ++ pre -> forallb service_event pre = true ->
             check_persistence s0 = (Ok false, s1) ->
             storagePermissionOpen (ui s1) = true
             /\ existsb is_toast (events_since s s1) = false).
  { intros s0 pre Tpre Fpre E.
    split; [exact (check_persistence_outcome _ _ _ E) |].
    destruct (respects_check_persistence s0) as [(new & T & F) _].
    rewrite E in T. cbn [snd] in T.
    assert (T' : trace s1 = trace s ++ pre ++ new) by (rewrite T, Tpre; trace_eq).
    rewrite (events_since_app _ _ _ T'), existsb_app,
      (existsb_none _ _ _ service_shows_no_toast Fpre),
      (existsb_none _ _ _ probe_not_toast F).
    reflexivity. }
  destruct (hasEnoughSpace c); cbn [negb orb].
  { intros E. destruct (Hperm sa newa Ta Fa' E) as [Hopen Hquiet].
    split; intros _; assumption. }
  unfold bind at 1.
  destruct (respects_canDownloadWithCleanup (fun _ => tt) (estimatedDownloadSize r) sa)
    as [(newb & Tb & Fb) _].
  destruct (canDownloadWithCleanup (estimatedDownloadSize r) sa) as [[d | e] sb].
  2: discriminate.
  cbn [fst snd] in *.
  destruct (canDownload d); cbn [negb].
  - intros E.
    assert (T : trace sb = trace s ++ newa ++ newb) by (rewrite Tb, Ta; trace_eq).
    assert (F : forallb service_event (newa ++ newb) = true)
      by (rewrite forallb_app, Fa', Fb; reflexivity).
    destruct (Hperm sb (newa ++ newb) T F E) as [Hopen Hquiet].
    split; intros _; assumption.
  - unfold bind, toast, emit, set_ui, ret. intros E. injection E as <-.
    split; [intros _; reflexivity | intros Hc; discriminate Hc].
Qed.

End ComponentProperties.

Section DownloadProperties.

Context {H : Type} `{HostAPI H} `{OfflineStorageService H}.

Lemma respects_call_downloadMultipleChapters (ids : list Z) :
  respects any_event (fun _ : UI => tt) (call_downloadMultipleChapters ids).
Proof.
  intros s. unfold call_downloadMultipleChapters.
  destruct (downloadMultipleChapters ids (host s)) as [[callbacks r] h'].
  split; [| reflexivity].
  exists [EvDownloadMultiple ids r]. split; reflexivity.
Qed.

Lemma respects_validate_chapters (downloaded validChapters : list Z) :
  respects any_event (fun _ : UI => tt) (validate_chapters downloaded validChapters).
Proof.
  revert validChapters.
  induction downloaded as [| chapterId rest IH]; intros validChapters;
    cbn [validate_chapters].
  - apply respects_ret.
  - apply respects_bind; [apply respects_host_call; reflexivity |].
    intros [|]; apply IH.
Qed.

Lemma respects_loadDownloadedChapters :
  respects any_event (fun _ : UI => tt) loadDownloadedChapters.
Proof.
  apply respects_try_catch.
  - apply respects_bind; [apply respects_host_call; reflexivity |]. intros downloaded.
    apply respects_bind; [apply respects_console; reflexivity |]. intros _.
    apply respects_bind; [apply respects_set_ui; reflexivity |]. intros _.
    apply respects_bind; [apply respects_validate_chapters |]. intros validChapters.
    destruct (negb (List.length validChapters =? List.length downloaded)%nat);
      [| apply respects_ret].
    apply respects_bind; [apply respects_console; reflexivity |]. intros _.
    apply respects_bind; [apply respects_host_call; reflexivity |]. intros _.
    apply respects_set_ui; reflexivity.
  - intros e. apply respects_bind; [apply respects_console; reflexivity |].
    intros _. apply respects_emit. reflexivity.
Qed.

Lemma respects_loadStorageInfo :
  respects any_event (fun _ : UI => tt) loadStorageInfo.
Proof.
  apply respects_try_catch.
  - apply respects_bind; [apply respects_host_call; reflexivity |]. intros info.
    apply respects_set_ui; reflexivity.
  - intros e. apply respects_console. reflexivity.
Qed.

Lemma respects_start_download (r : UI) :
  respects any_event (fun _ : UI => tt) (start_download r).
Proof.
  unfold start_download.
  apply respects_bind; [apply respects_set_ui; reflexivity |]. intros _.
  apply respects_bind; [apply respects_set_ui; reflexivity |]. intros _.
  apply respects_try_finally.
  - apply respects_try_catch.
    + apply respects_bind; [apply respects_call_downloadMultipleChapters |]. intros _.
      apply respects_bind; [apply respects_emit; reflexivity |]. intros _.
      apply respects_bind; [apply respects_set_ui; reflexivity |]. intros _.
      apply respects_bind; [apply respects_loadDownloadedChapters |]. intros _.
      apply respects_loadStorageInfo.
    + intros e. apply respects_bind; [apply respects_console; reflexivity |].
      intros _. apply respects_emit. reflexivity.
  - apply respects_bind; [apply respects_set_ui; reflexivity |]. intros _.
    apply respects_bind; [apply respects_set_ui; reflexivity |]. intros _.
    apply respects_set_ui; reflexivity.
Qed.

(** C8: a download request during which durable storage is not persistent
    (no [persisted()] query of the run answers [true]) is aborted before
    [downloadMultipleChapters] is called: [handleDownload] returns having
    made only pre-flight calls, so no fetch starts and the offline storage
    service, which owns the registry, is not touched; of the component state
    only the flag of the permission dialog may change, so [isDownloading]
    stays unset and [downloadedChapters] is what it was.  Every well-formed
    request (something selected, online) is aborted with the storage
    permission dialog opened.  When space is sufficient, at once or after
    the cleanup retry, the abort is the permission signal alone: the dialog
    is opened and no toast is shown. *)
Theorem handleDownload_requires_persistence (r : UI) (s : State H)
  (Hnot_persistent :
     existsb reports_persisted (events_since s (snd (handleDownload r s))) = false) :
  fst (handleDownload r s) = Ok tt
  /\ existsb download_started (events_since s (snd (handleDownload r s))) = false
  /\ forallb preflight_event (events_since s (snd (handleDownload r s))) = true
  /\ with_storagePermissionOpen false (ui (snd (handleDownload r s)))
     = with_storagePermissionOpen false (ui s)
  /\ (space_is_sufficient r s = true ->
      storagePermissionOpen (ui (snd (handleDownload r s))) = true
      /\ existsb is_toast (events_since s (snd (handleDownload r s))) = false)
  /\ (precondition_fails r = false ->
      storagePermissionOpen (ui (snd (handleDownload r s))) = true)
  /\ (space_suffices r s = true ->
      storagePermissionOpen (ui (snd (handleDownload r s))) = true
      /\ existsb is_toast (events_since s (snd (handleDownload r s))) = false).
Proof.
  destruct (checkStorageBeforeDownload_never_throws r s) as (b & s1 & E).
  assert (Hrun : handleDownload r s
                 = if b then start_download r s1 else (Ok tt, s1)).
  { unfold handleDownload, bind. rewrite E. destruct b; reflexivity. }
  destruct b.
  - (* the pre-flight passed: a persisted() query answered true *)
    exfalso.
    pose proof (checkStorageBeforeDownload_true _ _ _ E) as Hp.
    destruct (respects_checkStorageBeforeDownload r s) as [(new1 & T1 & _) _].
    rewrite E in T1. cbn [snd] in T1.
    destruct (respects_start_download r s1) as [(new2 & T2 & _) _].
    rewrite Hrun in Hnot_persistent.
    rewrite (events_since_app _ _ _ T1) in Hp.
    assert (T : trace (snd (start_download r s1)) = trace s ++ new1 ++ new2)
      by (rewrite T2, T1; trace_eq).
    rewrite (events_since_app _ _ _ T), existsb_app, Hp in Hnot_persistent.
    discriminate.
  - rewrite Hrun. cbn [fst snd].
    destruct (checkStorageBeforeDownload_stop_signal _ _ _ E) as [Hopen Hquiet].
    assert (Hstrong : space_suffices r s = true ->
                      storagePermissionOpen (ui s1) = true
                      /\ existsb is_toast (events_since s s1) = false).
    { intros Hspace. split; [| exact (Hquiet Hspace)].
      apply Hopen. unfold space_suffices in Hspace.
      apply andb_true_iff in Hspace as [Hpre _].
      apply negb_true_iff, Hpre. }
    destruct (respects_checkStorageBeforeDownload r s) as [(new1 & T1 & F1) U1].
    rewrite E in T1, U1. cbn [snd] in T1, U1.
    split; [reflexivity |].
    split; [rewrite (events_since_app _ _ _ T1);
            apply (existsb_none _ _ _ preflight_not_download F1) |].
    split; [rewrite (events_since_app _ _ _ T1); exact F1 |].
    split; [exact U1 |].
    split; [| split; [exact Hopen | exact Hstrong]].
    intros Hspace. apply Hstrong.
    unfold space_is_sufficient in Hspace. unfold space_suffices, precondition_fails.
    apply andb_true_iff in Hspace as [Hspace Henough].
    apply andb_true_iff in Hspace as [Hsel Honline].
    apply negb_true_iff in Hsel.
    rewrite Hsel, Honline. cbn [negb orb andb].
    destruct (checkAvailableSpace (estimatedDownloadSize r) s) as [[c | e] sa];
      cbn [fst] in Henough; [| discriminate].
    rewrite Henough. reflexivity.
Qed.

End DownloadProperties.

(** In [state0] two chapters are selected, the device is online, 2 MB are
    available for an estimated 147000 bytes, and storage is not persisted. *)
Lemma handleDownload_requires_persistence_witness :
  existsb reports_persisted (events_since state0 (snd (handleDownload ui0 state0)))
  = false
  /\ space_is_sufficient ui0 state0 = true
  /\ fst (handleDownload ui0 state0) = Ok tt
  /\ existsb download_started (events_since state0 (snd (handleDownload ui0 state0)))
     = false
  /\ storagePermissionOpen (ui (snd (handleDownload ui0 state0))) = true
  /\ existsb is_toast (events_since state0 (snd (handleDownload ui0 state0))) = false.
Proof.
  assert (Hnot : existsb reports_persisted
                    (events_since state0 (snd (handleDownload ui0 state0))) = false)
    by reflexivity.
  assert (Hspace : space_is_sufficient ui0 state0 = true) by reflexivity.
  split; [exact Hnot |]. split; [exact Hspace |].
  destruct (handleDownload_requires_persistence ui0 state0 Hnot)
    as (Hret & Hdl & _ & _ & Hsignal & _ & _).
  destruct (Hsignal Hspace) as [Hopen Htoast].
  repeat split; assumption.
Defined.

(** The retry path: 4 MB are asked for with 2 MB available, the cleanup of
    [browser_unlocked] frees 3 MB, storage is not persisted.  The download
    is not started, the permission dialog is opened and no toast is
    shown. *)
Example handleDownload_retry_then_permission :
  space_is_sufficient ui_retry (with_host browser_unlocked state0) = false
  /\ space_suffices ui_retry (with_host browser_unlocked state0) = true
  /\ existsb download_started
             (trace (snd (handleDownload ui_retry (with_host browser_unlocked state0))))
     = false
  /\ storagePermissionOpen
       (ui (snd (handleDownload ui_retry (with_host browser_unlocked state0)))) = true
  /\ existsb is_toast
             (trace (snd (handleDownload ui_retry (with_host browser_unlocked state0))))
     = false.
Proof. vm_compute. repeat split. Qed.

(** With persisted storage the same request goes through: the download is
    started and the two chapters end up in the registry of the test
    browser. *)
Example handleDownload_persisted_downloads :
  existsb download_started
          (trace (snd (handleDownload ui0 (with_host browser_persisted state0)))) = true
  /\ downloadedChapters (ui (snd (handleDownload ui0 (with_host browser_persisted state0))))
     = [1; 2]
  /\ isDownloading (ui (snd (handleDownload ui0 (with_host browser_persisted state0))))
     = false.
Proof. vm_compute. repeat split. Qed.

From Stdlib Require Import Permutation.

(** * Further properties of the service *)

(** The events appended to a trace that is written out. *)
Ltac events_simpl :=
  unfold events_since; cbn [trace];
  repeat rewrite <- app_assoc;
  rewrite ?skipn_app, ?skipn_all, ?Nat.sub_diag;
  cbn [skipn app].

(** Case analysis on the answers of the Storage API met along a run. *)
Ltac storage_cases :=
  repeat first
    [ progress cbn [host localStorage ui trace fst snd negb andb orb]
    | match goal with
      | |- context [storage_in_navigator ?h] =>
          destruct (storage_in_navigator h) eqn:?
      | |- context [persist_in_storage ?h] =>
          destruct (persist_in_storage h) eqn:?
      | |- context [storage_estimate ?h] =>
          destruct (storage_estimate h) as [[? | ?] ?] eqn:?
      | |- context [storage_persisted ?h] =>
          destruct (storage_persisted h) as [[[|] | ?] ?] eqn:?
      | |- context [storage_persist ?h] =>
          destruct (storage_persist h) as [[[|] | ?] ?] eqn:?
      | |- context [setItem_accepts ?h ?k ?v] =>
          destruct (setItem_accepts h k v) eqn:?
      end ].

Section ProbeExtras.

Context {H : Type} `{HostAPI H}.

(** X1: the quota probe never throws and its snapshot is consistent:
    [available = quota - usage] on every path, and [persistent] is [true]
    only when [persisted()] answered [true] in this probe.  It writes
    neither [localStorage] nor the component state. *)
Theorem getStoragePermissionStatus_snapshot (s : State H) :
  exists status s',
    getStoragePermissionStatus s = (Ok status, s')
    /\ available status = quota status - usage status
    /\ (if persistent status
        then existsb reports_persisted (events_since s s') = true
        else True)
    /\ localStorage s' = localStorage s
    /\ ui s' = ui s.
Proof.
  unfold getStoragePermissionStatus, try_catch, navigator_storage_estimate,
    navigator_storage_persisted, host_call, bind, console, emit, ret.
  storage_cases;
    (eexists _, _; split; [reflexivity |];
     cbn [available quota usage persistent localStorage ui];
     repeat split; events_simpl; reflexivity).
Qed.

End ProbeExtras.

Section GrantExtras.

Context {H : Type} `{HostAPI H}.

Ltac unfold_request :=
  unfold requestPersistentStorage, try_catch, isStorageAPISupported, read_host,
    navigator_storage_persisted, navigator_storage_persist, host_call, setItem,
    bind, console, emit, ret.

(** X2: [requestPersistentStorage] never throws.  It answers [true] only
    after the host said so ([persisted()] or [persist()] answered [true] in
    this call), and it leaves [localStorage] as it was unless a grant
    request was answered. *)
Theorem requestPersistentStorage_sound (s : State H) :
  exists b s',
    requestPersistentStorage s = (Ok b, s')
    /\ (if b then existsb persistence_confirmed (events_since s s') = true
        else True)
    /\ (if existsb grant_answered (events_since s s') then True
        else localStorage s' = localStorage s)
    /\ ui s' = ui s.
Proof.
  unfold_request.
  storage_cases;
    (eexists _, _; split; [reflexivity |];
     cbn [localStorage ui]; events_simpl;
     cbn [existsb persistence_confirmed grant_answered orb];
     repeat split).
Qed.

(** X3: without the Storage API ('storage' missing from [navigator], or
    'persist' missing from [navigator.storage]) [requestPersistentStorage]
    answers [false] after a console warning: it makes no host call and
    writes nothing. *)
Theorem requestPersistentStorage_unsupported (s : State H)
  (Hunsupported :
     storage_in_navigator (host s) && persist_in_storage (host s) = false) :
  exists s',
    requestPersistentStorage s = (Ok false, s')
    /\ events_since s s' = [EvConsole warn MsgApiUnsupported]
    /\ host s' = host s
    /\ localStorage s' = localStorage s.
Proof.
  unfold_request. rewrite Hunsupported. cbn [negb].
  eexists. split; [reflexivity |].
  events_simpl. repeat split.
Qed.

Lemma getItem_store_set_frame (key key' value : string) (st : Storage) :
  String.eqb key' key = false ->
  getItem key' (store_set key value st) = getItem key' st.
Proof.
  intros Hne. apply getItem_store_set_other.
  intros ->. rewrite String.eqb_refl in Hne. discriminate.
Qed.

(** X4: [requestPersistentStorage] writes two entries of [localStorage] at
    most: every key other than "storage-permission-granted" and
    "storage-permission-date" reads after the call as it did before. *)
Theorem requestPersistentStorage_frame (s : State H) (key : string)
  (Hgranted : key <> "storage-permission-granted")
  (Hdate : key <> "storage-permission-date") :
  getItem key (localStorage (snd (requestPersistentStorage s)))
  = getItem key (localStorage s).
Proof.
  apply String.eqb_neq in Hgranted, Hdate.
  unfold_request.
  storage_cases; cbn [localStorage snd];
    rewrite ?getItem_store_set_frame by assumption; reflexivity.
Qed.

(** X5: when the host gives the grant but [localStorage] refuses the write
    of "storage-permission-granted", [requestPersistentStorage] answers
    [false] although storage is now persistent, and nothing is recorded. *)
Theorem requestPersistentStorage_granted_but_unrecorded (s : State H)
  (Hrefused : granted_but_unrecorded s = true) :
  exists s',
    requestPersistentStorage s = (Ok false, s')
    /\ existsb persistence_confirmed (events_since s s') = true
    /\ localStorage s' = localStorage s.
Proof.
  unfold granted_but_unrecorded in Hrefused. revert Hrefused.
  unfold_request.
  storage_cases; intros Hrefused; try discriminate;
    (eexists; split; [reflexivity |]; events_simpl; repeat split).
Qed.

End GrantExtras.

Lemma requestPersistentStorage_unsupported_witness :
  storage_in_navigator (host (with_host browser_legacy state0))
  && persist_in_storage (host (with_host browser_legacy state0)) = false
  /\ exists s',
       requestPersistentStorage (with_host browser_legacy state0) = (Ok false, s')
       /\ events_since (with_host browser_legacy state0) s'
          = [EvConsole warn MsgApiUnsupported]
       /\ host s' = host (with_host browser_legacy state0)
       /\ localStorage s' = localStorage (with_host browser_legacy state0).
Proof.
  split; [reflexivity |].
  apply requestPersistentStorage_unsupported. reflexivity.
Defined.

Lemma requestPersistentStorage_frame_witness :
  "theme" <> "storage-permission-granted"
  /\ "theme" <> "storage-permission-date"
  /\ getItem "theme"
       (localStorage (snd (requestPersistentStorage (with_host browser_granting state0))))
     = getItem "theme" (localStorage (with_host browser_granting state0)).
Proof.
  assert (H1 : "theme" <> "storage-permission-granted") by discriminate.
  assert (H2 : "theme" <> "storage-permission-date") by discriminate.
  split; [exact H1 |]. split; [exact H2 |].
  exact (requestPersistentStorage_frame (with_host browser_granting state0) "theme" H1 H2).
Defined.

Lemma requestPersistentStorage_granted_but_unrecorded_witness :
  granted_but_unrecorded (with_host browser_full state0) = true
  /\ exists s',
       requestPersistentStorage (with_host browser_full state0) = (Ok false, s')
       /\ existsb persistence_confirmed (events_since (with_host browser_full state0) s')
          = true
       /\ localStorage s' = localStorage (with_host browser_full state0).
Proof.
  split; [reflexivity |].
  apply requestPersistentStorage_granted_but_unrecorded. reflexivity.
Defined.

(** ** Further properties of the estimator and of the space check *)

(** X6: the estimate of a batch is 500 bytes per verse plus 1000 bytes per
    chapter, and the estimate of two batches put together is the sum of
    their estimates. *)
Theorem estimateMultipleChaptersSize_closed_form (batch1 batch2 : list Chapter) :
  estimateMultipleChaptersSize batch1
  = 500 * list_sum_Z (map verses_count batch1) + 1000 * Z.of_nat (List.length batch1)
  /\ estimateMultipleChaptersSize (batch1 ++ batch2)
     = estimateMultipleChaptersSize batch1 + estimateMultipleChaptersSize batch2.
Proof.
  unfold estimateMultipleChaptersSize. split.
  - rewrite fold_estimate_shift.
    induction batch1 as [| c batch1 IH]; [reflexivity |].
    cbn [map list_sum_Z List.length]. rewrite Nat2Z.inj_succ.
    unfold estimateChapterSize, averageBytesPerVerse, chapterMetadata in *. lia.
  - rewrite fold_left_app, !fold_estimate_shift. lia.
Qed.

Lemma list_sum_Z_permutation (l1 l2 : list Z) :
  Permutation l1 l2 -> list_sum_Z l1 = list_sum_Z l2.
Proof.
  induction 1; cbn [list_sum_Z]; lia.
Qed.

(** X7: the estimate of a batch does not depend on the order of its
    chapters. *)
Theorem estimateMultipleChaptersSize_permutation (batch1 batch2 : list Chapter)
  (Hperm : Permutation batch1 batch2) :
  estimateMultipleChaptersSize batch1 = estimateMultipleChaptersSize batch2.
Proof.
  unfold estimateMultipleChaptersSize. rewrite !fold_estimate_shift.
  f_equal. apply list_sum_Z_permutation, Permutation_map, Hperm.
Qed.

Lemma estimateMultipleChaptersSize_permutation_witness :
  Permutation [ {| chapter_id := 1; verses_count := 7 |};
                {| chapter_id := 2; verses_count := 286 |} ]
              [ {| chapter_id := 2; verses_count := 286 |};
                {| chapter_id := 1; verses_count := 7 |} ]
  /\ estimateMultipleChaptersSize
       [ {| chapter_id := 1; verses_count := 7 |};
         {| chapter_id := 2; verses_count := 286 |} ]
     = estimateMultipleChaptersSize
         [ {| chapter_id := 2; verses_count := 286 |};
           {| chapter_id := 1; verses_count := 7 |} ].
Proof.
  assert (Hperm : Permutation
                    [ {| chapter_id := 1; verses_count := 7 |};
                      {| chapter_id := 2; verses_count := 286 |} ]
                    [ {| chapter_id := 2; verses_count := 286 |};
                      {| chapter_id := 1; verses_count := 7 |} ])
    by apply perm_swap.
  split; [exact Hperm |].
  exact (estimateMultipleChaptersSize_permutation _ _ Hperm).
Defined.

Section SpaceExtras.

Context {H : Type} `{HostAPI H}.

Lemma probe_failure_run (s : State H) :
  probe_fails s = true ->
  exists s', getStoragePermissionStatus s = (Ok zeroed_status, s').
Proof.
  unfold probe_fails. intros Hfail. revert Hfail.
  unfold getStoragePermissionStatus, try_catch, navigator_storage_estimate,
    navigator_storage_persisted, host_call, bind, console, emit, ret.
  storage_cases; cbn [is_thrown fst snd negb orb]; intros Hfail;
    try discriminate; try (cbn [snd] in *; congruence); eexists; reflexivity.
Qed.

(** X8: when the host storage capability fails, a positive requirement is
    never reported as satisfiable: [checkAvailableSpace] answers
    [hasEnoughSpace = false] with no available byte and the whole
    requirement as shortage. *)
Theorem checkAvailableSpace_on_probe_failure (required : Z) (s : State H)
  (Hfail : probe_fails s = true) (Hpositive : 0 < required) :
  exists s',
    checkAvailableSpace required s
    = (Ok {| hasEnoughSpace := false;
             availableBytes := 0;
             requiredBytes := required;
             shortageBytes := required |}, s').
Proof.
  destruct (probe_failure_run s Hfail) as [s' Eprobe].
  destruct (checkAvailableSpace_run required s) as (status & s1 & E1 & Echeck).
  rewrite Eprobe in E1. injection E1 as <- <-.
  exists s'. rewrite Echeck. cbn [available zeroed_status].
  rewrite Z.geb_leb.
  destruct (Z.leb_spec required 0); [lia |].
  rewrite Z.sub_0_r. reflexivity.
Qed.

(** X9: probed from one and the same state, a smaller requirement never
    has a larger shortage, and it is satisfiable whenever the larger one
    is; both checks see the same available space. *)
Theorem checkAvailableSpace_antitone (required1 required2 : Z) (s : State H)
  (Hle : required2 <= required1) :
  exists c1 c2 s',
    checkAvailableSpace required1 s = (Ok c1, s')
    /\ checkAvailableSpace required2 s = (Ok c2, s')
    /\ shortageBytes c2 <= shortageBytes c1
    /\ implb (hasEnoughSpace c1) (hasEnoughSpace c2) = true
    /\ availableBytes c2 = availableBytes c1.
Proof.
  destruct (checkAvailableSpace_run required1 s) as (status & s' & E1 & Echeck1).
  destruct (checkAvailableSpace_run required2 s) as (status2 & s2 & E2 & Echeck2).
  rewrite E1 in E2. injection E2 as <- <-.
  eexists _, _, s'. split; [exact Echeck1 |]. split; [exact Echeck2 |].
  cbn [shortageBytes hasEnoughSpace availableBytes].
  rewrite !Z.geb_leb.
  destruct (Z.leb_spec required1 (available status)),
           (Z.leb_spec required2 (available status));
    cbn [implb]; repeat split; lia.
Qed.

(** X10: whichever branch [canDownloadWithCleanup] takes, it never throws
    and [canDownload] is [true] exactly when the [availableAfterCleanup] it
    reports covers the requirement; the component state is not touched. *)
Theorem canDownloadWithCleanup_decision (required : Z) (s : State H) :
  exists d s',
    canDownloadWithCleanup required s = (Ok d, s')
    /\ canDownload d = (availableAfterCleanup d >=? required)
    /\ ui s' = ui s.
Proof.
  destruct (respects_canDownloadWithCleanup (fun u => u) required s) as [_ Hui].
  revert Hui.
  unfold canDownloadWithCleanup, bind.
  destruct (checkAvailableSpace_run required s) as (status & s1 & _ & Echeck).
  rewrite Echeck. cbn [hasEnoughSpace availableBytes].
  destruct (available status >=? required) eqn:Hge.
  - intros Hui. eexists _, _. split; [reflexivity |].
    cbn [canDownload availableAfterCleanup snd] in *. auto.
  - destruct (cleanupOldData_never_throws s1) as (freed & s2 & Eclean).
    rewrite Eclean.
    destruct (checkAvailableSpace_run required s2) as (status2 & s3 & _ & Echeck2).
    rewrite Echeck2. unfold ret. intros Hui.
    eexists _, _. split; [reflexivity |].
    cbn [canDownload availableAfterCleanup hasEnoughSpace availableBytes snd] in *.
    auto.
Qed.

End SpaceExtras.

Lemma checkAvailableSpace_on_probe_failure_witness :
  probe_fails (with_host browser_legacy state0) = true
  /\ 0 < 147000
  /\ exists s',
       checkAvailableSpace 147000 (with_host browser_legacy state0)
       = (Ok {| hasEnoughSpace := false;
                availableBytes := 0;
                requiredBytes := 147000;
                shortageBytes := 147000 |}, s').
Proof.
  assert (Hfail : probe_fails (with_host browser_legacy state0) = true) by reflexivity.
  assert (Hpos : 0 < 147000) by lia.
  split; [exact Hfail |]. split; [exact Hpos |].
  exact (checkAvailableSpace_on_probe_failure 147000 _ Hfail Hpos).
Defined.

Lemma checkAvailableSpace_antitone_witness :
  1000 <= 3 * MB
  /\ exists c1 c2 s',
       checkAvailableSpace (3 * MB) state0 = (Ok c1, s')
       /\ checkAvailableSpace 1000 state0 = (Ok c2, s')
       /\ shortageBytes c2 <= shortageBytes c1
       /\ implb (hasEnoughSpace c1) (hasEnoughSpace c2) = true
       /\ availableBytes c2 = availableBytes c1.
Proof.
  assert (Hle : 1000 <= 3 * MB) by (unfold MB; lia).
  split; [exact Hle |].
  exact (checkAvailableSpace_antitone (3 * MB) 1000 state0 Hle).
Defined.

(** ** Further properties of the cleanup pass *)

Lemma remove_other_keys (k v : string) (keys : list string) (st : Storage) :
  forallb (fun k' => negb (String.eqb k k')) keys = true ->
  fold_left (fun st0 k' => store_remove k' st0) keys ((k, v) :: st)
  = (k, v) :: fold_left (fun st0 k' => store_remove k' st0) keys st.
Proof.
  revert st.
  induction keys as [| k' keys IH]; intros st Hother; cbn [fold_left forallb] in *.
  - reflexivity.
  - apply andb_true_iff in Hother as [Hk Hrest].
    cbn [store_remove]. apply negb_true_iff in Hk. rewrite Hk.
    apply IH, Hrest.
Qed.

Lemma stale_keys_differ (k : string) (keys : list string) :
  stale_key k = false ->
  forallb (fun k' => negb (String.eqb k k')) (filter stale_key keys) = true.
Proof.
  intros Hk.
  induction keys as [| k' keys IH]; cbn [filter forallb]; [reflexivity |].
  destruct (stale_key k') eqn:Hk'; [| exact IH].
  cbn [forallb]. rewrite IH, andb_true_r.
  apply negb_true_iff.
  destruct (String.eqb_spec k k'); [congruence | reflexivity].
Qed.

(** Removing the stale keys of a store, one by one in store order, leaves
    exactly its other entries. *)
Lemma remove_stale_keys (st : Storage) :
  fold_left (fun st0 k => store_remove k st0) (filter stale_key (map fst st)) st
  = without_stale st.
Proof.
  induction st as [| [k v] st IH]; [reflexivity |].
  unfold without_stale in *. cbn [map fst filter].
  destruct (stale_key k) eqn:Hk; cbn [negb fold_left store_remove].
  - rewrite String.eqb_refl. exact IH.
  - rewrite remove_other_keys by (apply stale_keys_differ, Hk).
    rewrite IH. reflexivity.
Qed.

Lemma getItem_without_stale (key : string) (st : Storage) :
  getItem key (without_stale st)
  = if stale_key key then None else getItem key st.
Proof.
  unfold without_stale.
  induction st as [| [k v] st IH]; cbn [filter getItem fst].
  - destruct (stale_key key); reflexivity.
  - destruct (stale_key k) eqn:Hk; cbn [negb getItem].
    + destruct (String.eqb_spec k key) as [<- | Hne].
      * rewrite Hk in *. exact IH.
      * exact IH.
    + destruct (String.eqb_spec k key) as [<- | Hne].
      * rewrite Hk. reflexivity.
      * exact IH.
Qed.

Section CleanupExtras.

Context {H : Type} `{HostAPI H}.

Lemma remove_keys_store (keysToRemove : list string) (freed : Z) (s : State H) :
  exists n s',
    remove_keys keysToRemove freed s = (Ok n, s')
    /\ localStorage s'
       = fold_left (fun st k => store_remove k st) keysToRemove (localStorage s).
Proof.
  revert freed s.
  induction keysToRemove as [| key rest IH]; intros freed s.
  - eexists _, _. split; reflexivity.
  - cbn [remove_keys fold_left]. unfold bind, removeItem.
    match goal with
    | |- context [remove_keys rest ?f ?s1] => destruct (IH f s1) as (n & s' & E & L)
    end.
    exists n, s'. rewrite E. split; [reflexivity | exact L].
Qed.

Lemma cleanup_tail_store (freed n : Z) (s s' : State H) :
  cleanup_tail freed s = (Ok n, s') ->
  localStorage s' = without_stale (localStorage s).
Proof.
  unfold cleanup_tail, bind at 1. rewrite scan_localStorage_spec.
  unfold bind at 1.
  destruct (remove_keys_store (filter stale_key (map fst (localStorage s))) freed s)
    as (n1 & s1 & E & L).
  rewrite E. unfold bind, console, emit, ret.
  intros Eq. injection Eq as _ <-. cbn [localStorage].
  rewrite L. apply remove_stale_keys.
Qed.

Lemma cleanup_body_store (n : Z) (s s' : State H) :
  cleanup_body s = (Ok n, s') ->
  localStorage s' = without_stale (localStorage s).
Proof.
  rewrite cleanup_body_unfold.
  destruct (caches_in_window (host s)); [| apply cleanup_tail_store].
  unfold bind, host_call.
  destruct (caches_keys (host s)) as [[cacheNames | e] h1]; [| discriminate].
  match goal with
  | |- context [delete_stale_caches cacheNames 0 ?s1] =>
      destruct (delete_stale_caches_cases cacheNames 0 s1)
        as [(n1 & s1' & work & E & _ & _ & _ & L)
           | (e & s1' & done & bad & E & _)]
  end; rewrite E; [| discriminate].
  intros Etail. rewrite (cleanup_tail_store _ _ _ _ Etail), L. reflexivity.
Qed.

(** X11: a cleanup pass in which no Cache API call fails removes exactly
    the stale keys of [localStorage] (the non-empty keys containing "temp-"
    or "cache-"): afterwards a stale key reads as absent and every other
    key reads as before. *)
Theorem cleanupOldData_clears_stale_keys (s : State H) :
  exists n s',
    cleanupOldData s = (Ok n, s')
    /\ if existsb host_failure (events_since s s') then True
       else forall key,
              getItem key (localStorage s')
              = if stale_key key then None else getItem key (localStorage s).
Proof.
  unfold cleanupOldData, try_catch.
  destruct (cleanup_body_cases s)
    as [(n & s' & work & E & T & W & F & N)
       | (e & s' & done & bad & E & T & W & F & B & K & L)];
    rewrite E.
  - exists n, s'. split; [reflexivity |].
    rewrite (events_since_app _ _ _ T), existsb_app, F.
    cbn [existsb host_failure orb].
    intros key. rewrite (cleanup_body_store _ _ _ E).
    apply getItem_without_stale.
  - unfold bind, console, emit, ret.
    eexists 0, _. split; [reflexivity |].
    match goal with
    | |- context [events_since s ?s2] =>
        assert (T2 : trace s2
                     = trace s ++ done ++ [bad; EvConsole err (MsgCleanupFailed e)])
          by (cbn [trace]; rewrite T; trace_eq);
        rewrite (events_since_app s s2 _ T2)
    end.
    rewrite existsb_app. cbn [existsb]. rewrite B, orb_true_r. exact I.
Qed.

Lemma stale_only_delete_stale_caches {X : Type} (f : UI -> X)
  (cacheNames : list string) (freed : Z) :
  respects stale_only f (delete_stale_caches cacheNames freed).
Proof.
  revert freed.
  induction cacheNames as [| cacheName rest IH]; intros freed;
    cbn [delete_stale_caches].
  - apply respects_ret.
  - destruct (includes cacheName "old" || includes cacheName "temp") eqn:Hstale;
      [| apply IH].
    apply respects_bind; [apply respects_host_call; intros r; exact Hstale |].
    intros _. apply IH.
Qed.

Lemma stale_only_remove_keys {X : Type} (f : UI -> X)
  (keysToRemove : list string) (freed : Z) :
  forallb stale_key keysToRemove = true ->
  respects stale_only f (@remove_keys H keysToRemove freed).
Proof.
  revert freed.
  induction keysToRemove as [| key rest IH]; intros freed Hstale;
    cbn [remove_keys forallb] in *.
  - apply respects_ret.
  - apply andb_true_iff in Hstale as [Hkey Hrest].
    apply respects_bind; [apply respects_removeItem; exact Hkey |].
    intros _. apply IH, Hrest.
Qed.

Lemma forallb_filter_same {A : Type} (p : A -> bool) (l : list A) :
  forallb p (filter p l) = true.
Proof.
  induction l as [| x l IH]; cbn [filter]; [reflexivity |].
  destruct (p x) eqn:Hp; [cbn [forallb]; rewrite Hp; exact IH | exact IH].
Qed.

Lemma stale_only_cleanup_tail {X : Type} (f : UI -> X) (freed : Z) :
  respects stale_only f (@cleanup_tail H freed).
Proof.
  intros s. unfold cleanup_tail, bind at 1. rewrite scan_localStorage_spec.
  refine (respects_bind stale_only f _ _ _ _ s).
  - apply stale_only_remove_keys, forallb_filter_same.
  - intros freed'. apply respects_bind; [apply respects_console; reflexivity |].
    intros _. apply respects_ret.
Qed.

Lemma stale_only_cleanupOldData {X : Type} (f : UI -> X) :
  respects stale_only f cleanupOldData.
Proof.
  apply respects_try_catch.
  - intros s. rewrite cleanup_body_unfold.
    destruct (caches_in_window (host s)); [| apply stale_only_cleanup_tail].
    refine (respects_bind stale_only f _ _ _ _ s).
    + apply respects_bind; [apply respects_host_call; reflexivity |].
      intros cacheNames. apply stale_only_delete_stale_caches.
    + intros freed. apply stale_only_cleanup_tail.
  - intros e. apply respects_bind; [apply respects_console; reflexivity |].
    intros _. apply respects_ret.
Qed.

(** X12: a cleanup pass only ever asks to delete cache buckets whose name
    contains "old" or "temp", and only ever removes [localStorage] keys
    that are non-empty and contain "temp-" or "cache-"; this holds also for
    a pass that ends in a failure. *)
Theorem cleanupOldData_touches_stale_only (s : State H) :
  forallb stale_only (events_since s (snd (cleanupOldData s))) = true.
Proof.
  destruct (stale_only_cleanupOldData (fun _ => tt) s) as [(new & T & F) _].
  rewrite (events_since_app _ _ _ T). exact F.
Qed.

Lemma delete_nothing_stale (cacheNames : list string) (freed : Z) (s : State H) :
  forallb (fun n => negb (stale_cache n)) cacheNames = true ->
  delete_stale_caches cacheNames freed s = (Ok freed, s).
Proof.
  induction cacheNames as [| cacheName rest IH]; cbn [forallb delete_stale_caches];
    intros Hnone.
  - reflexivity.
  - apply andb_true_iff in Hnone as [Hname Hrest].
    apply negb_true_iff in Hname. unfold stale_cache in Hname. rewrite Hname.
    apply IH, Hrest.
Qed.

Lemma filter_nothing {A : Type} (p : A -> bool) (l : list A) :
  forallb (fun x => negb (p x)) l = true -> filter p l = [].
Proof.
  induction l as [| x l IH]; cbn [forallb filter]; intros Hnone; [reflexivity |].
  apply andb_true_iff in Hnone as [Hx Hrest].
  apply negb_true_iff in Hx. rewrite Hx. apply IH, Hrest.
Qed.

(** X13: when there is nothing to reclaim (no stale key, and no Cache API
    or no stale bucket), [cleanupOldData] reports 0 freed bytes and leaves
    [localStorage] unchanged; it deletes no bucket and removes no key, its
    only cleanup call being the enumeration [caches.keys()] when the Cache
    API is there. *)
Theorem cleanupOldData_nothing_to_reclaim (s : State H)
  (Hnothing : nothing_to_reclaim s = true) :
  exists s',
    cleanupOldData s = (Ok 0, s')
    /\ localStorage s' = localStorage s
    /\ count cleanup_work (events_since s s')
       = (if caches_in_window (host s) then 1 else 0)%nat
    /\ existsb host_failure (events_since s s') = false.
Proof.
  unfold nothing_to_reclaim in Hnothing.
  apply andb_true_iff in Hnothing as [Hkeys Hcaches].
  assert (Htail : forall s0 : State H,
             localStorage s0 = localStorage s ->
             cleanup_tail 0 s0
             = (Ok 0, mkState (host s0) (localStorage s0) (ui s0)
                              (trace s0 ++ [EvConsole log (MsgCleaned 0)]))).
  { intros s0 Hls. unfold cleanup_tail, bind at 1.
    rewrite scan_localStorage_spec.
    replace (filter stale_key (map fst (localStorage s0))) with (@nil string)
      by (rewrite Hls; symmetry; apply filter_nothing, Hkeys).
    reflexivity. }
  unfold cleanupOldData, try_catch. rewrite cleanup_body_unfold.
  destruct (caches_in_window (host s)); cbn [negb orb] in Hcaches.
  - unfold bind, host_call.
    destruct (caches_keys (host s)) as [[cacheNames | e] h1]; cbn [fst] in Hcaches;
      [| discriminate].
    rewrite (delete_nothing_stale _ _ _ Hcaches).
    rewrite Htail by reflexivity.
    eexists. split; [reflexivity |].
    cbn [localStorage]. split; [reflexivity |].
    events_simpl. split; reflexivity.
  - rewrite Htail by reflexivity.
    eexists. split; [reflexivity |].
    cbn [localStorage]. split; [reflexivity |].
    events_simpl. split; reflexivity.
Qed.

End CleanupExtras.

Lemma cleanupOldData_nothing_to_reclaim_witness :
  nothing_to_reclaim state_clean = true
  /\ exists s',
       cleanupOldData state_clean = (Ok 0, s')
       /\ localStorage s' = localStorage state_clean
       /\ count cleanup_work (events_since state_clean s')
          = (if caches_in_window (host state_clean) then 1 else 0)%nat
       /\ existsb host_failure (events_since state_clean s') = false.
Proof.
  assert (Hnothing : nothing_to_reclaim state_clean = true) by reflexivity.
  split; [exact Hnothing |].
  exact (cleanupOldData_nothing_to_reclaim state_clean Hnothing).
Defined.

(** ** Further properties of the pre-flight *)

Section PreflightExtras.

Context {H : Type} `{HostAPI H} `{OfflineStorageService H}.

(** X14: with nothing selected, or offline, [handleDownload] stops at the
    precondition: it shows one toast (no selection before offline), makes no
    host call at all, and leaves the host, [localStorage] and the component
    state as they were. *)
Theorem handleDownload_precondition (r : UI) (s : State H)
  (Hpre : precondition_fails r = true) :
  exists s',
    handleDownload r s = (Ok tt, s')
    /\ events_since s s'
       = [EvToast (if (List.length (selectedChapters r) =? 0)%nat
                   then ToastNoSelection else ToastOffline)]
    /\ host s' = host s
    /\ localStorage s' = localStorage s
    /\ ui s' = ui s.
Proof.
  unfold precondition_fails in Hpre.
  unfold handleDownload, checkStorageBeforeDownload, bind at 1.
  destruct (List.length (selectedChapters r) =? 0)%nat.
  - eexists. split; [reflexivity |]. events_simpl. repeat split.
  - cbn [orb] in Hpre. rewrite Hpre.
    eexists. split; [reflexivity |]. events_simpl. repeat split.
Qed.

Lemma check_persistence_true_ui (s s1 : State H) :
  check_persistence s = (Ok true, s1) -> ui s1 = ui s.
Proof.
  unfold check_persistence, getStoragePermissionStatus, try_catch,
    navigator_storage_estimate, navigator_storage_persisted, host_call,
    bind, console, emit, set_ui, ret.
  storage_cases; cbn [persistent negb]; intros E; try discriminate;
    injection E as <-; reflexivity.
Qed.

Lemma service_not_toast (e : Event) : service_event e = true -> is_toast e = false.
Proof.
  destruct e; cbn; try reflexivity. unfold service_event. cbn. discriminate.
Qed.

(** X15: when the pre-flight answers [true], something was selected and the
    device was online, no toast was shown, the permission dialog was not
    opened (the component state is untouched), and only calls of the storage
    permission service were made. *)
Theorem checkStorageBeforeDownload_passes (r : UI) (s s1 : State H)
  (Hpass : checkStorageBeforeDownload r s = (Ok true, s1)) :
  precondition_fails r = false
  /\ ui s1 = ui s
  /\ forallb service_event (events_since s s1) = true
  /\ existsb is_toast (events_since s s1) = false.
Proof.
  assert (Hgoal : precondition_fails r = false
                  /\ ui s1 = ui s
                  /\ forallb service_event (events_since s s1) = true).
  { revert Hpass. unfold precondition_fails, checkStorageBeforeDownload.
    destruct (List.length (selectedChapters r) =? 0)%nat; [discriminate |].
    destruct (isOnline r); cbn [negb orb]; [| discriminate].
    assert (Hperm : forall (s0 : State H) pre,
               trace s0 = trace s ++ pre -> forallb service_event pre = true ->
               ui s0 = ui s ->
               check_persistence s0 = (Ok true, s1) ->
               false = false /\ ui s1 = ui s
               /\ forallb service_event (events_since s s1) = true).
    { intros s0 pre Tpre Fpre Upre E.
      split; [reflexivity |].
      split; [rewrite (check_persistence_true_ui _ _ E); exact Upre |].
      destruct (respects_check_persistence s0) as [(new & T & F) _].
      rewrite E in T. cbn [snd] in T.
      assert (T' : trace s1 = trace s ++ pre ++ new) by (rewrite T, Tpre; trace_eq).
      rewrite (events_since_app _ _ _ T'), forallb_app, Fpre.
      apply (forallb_weaken _ _ _ probe_is_service F). }
    unfold bind at 1.
    destruct (respects_checkAvailableSpace (fun u => u) (estimatedDownloadSize r) s)
      as [(newa & Ta & Fa) Ua].
    destruct (checkAvailableSpace (estimatedDownloadSize r) s) as [[c | e] sa];
      [| discriminate].
    cbn [snd] in Ta, Ua.
    pose proof (forallb_weaken _ _ _ probe_is_service Fa) as Fa'.
    destruct (negb (hasEnoughSpace c)); [| apply (Hperm sa newa Ta Fa' Ua)].
    unfold bind at 1.
    destruct (respects_canDownloadWithCleanup (fun u => u) (estimatedDownloadSize r) sa)
      as [(newb & Tb & Fb) Ub].
    destruct (canDownloadWithCleanup (estimatedDownloadSize r) sa) as [[d | e] sb];
      [| discriminate].
    cbn [snd] in Tb, Ub.
    destruct (negb (canDownload d)); [cbn; discriminate |].
    apply (Hperm sb (newa ++ newb)).
    - rewrite Tb, Ta. trace_eq.
    - rewrite forallb_app, Fa', Fb. reflexivity.
    - congruence. }
  destruct Hgoal as (Hpre & Hui & Hev).
  repeat split; try assumption.
  apply (existsb_none _ _ _ service_not_toast Hev).
Qed.

Lemma service_not_this_toast (t : Toast) (e : Event) :
  service_event e = true -> toast_is t e = false.
Proof.
  destruct e; cbn; try reflexivity. unfold service_event. cbn. discriminate.
Qed.

(** X16: the "insufficient space" toast is shown only when the pre-flight
    fails: the shortage it reports is positive and is the one of the check
    made before the cleanup, the permission dialog is opened and the
    pre-flight answers [false]. *)
Theorem checkStorageBeforeDownload_insufficient (r : UI) (s : State H) (n : Z)
  (Htoast : existsb (toast_is (ToastInsufficientSpace n))
                    (events_since s (snd (checkStorageBeforeDownload r s))) = true) :
  fst (checkStorageBeforeDownload r s) = Ok false
  /\ storagePermissionOpen (ui (snd (checkStorageBeforeDownload r s))) = true
  /\ 0 < n
  /\ exists c sa,
       checkAvailableSpace (estimatedDownloadSize r) s = (Ok c, sa)
       /\ hasEnoughSpace c = false
       /\ n = shortageBytes c.
Proof.
  unfold checkStorageBeforeDownload in *.
  unfold bind, toast, emit, set_ui, ret in *.
  destruct (List.length (selectedChapters r) =? 0)%nat.
  { cbn [snd] in Htoast. revert Htoast. events_simpl. cbn. discriminate. }
  destruct (negb (isOnline r)).
  { cbn [snd] in Htoast. revert Htoast. events_simpl. cbn. discriminate. }
  assert (Hperm : forall (s0 : State H) pre,
             trace s0 = trace s ++ pre -> forallb service_event pre = true ->
             existsb (toast_is (ToastInsufficientSpace n))
                     (events_since s (snd (check_persistence s0))) = true ->
             False).
  { intros s0 pre Tpre Fpre Hex.
    destruct (respects_check_persistence s0) as [(new & T & F) _].
    assert (T' : trace (snd (check_persistence s0)) = trace s ++ pre ++ new)
      by (rewrite T, Tpre; trace_eq).
    rewrite (events_since_app _ _ _ T'), !existsb_app in Hex.
    rewrite (existsb_none _ _ _ (service_not_this_toast _) Fpre) in Hex.
    rewrite (existsb_none _ _ _ (service_not_this_toast _)
               (forallb_weaken _ _ _ probe_is_service F)) in Hex.
    discriminate. }
  destruct (checkAvailableSpace_run (estimatedDownloadSize r) s)
    as (status & sa & _ & Echeck).
  destruct (respects_checkAvailableSpace (fun u => u) (estimatedDownloadSize r) s)
    as [(newa & Ta & Fa) _].
  rewrite Echeck in *. cbn [snd hasEnoughSpace shortageBytes] in *.
  pose proof (forallb_weaken _ _ _ probe_is_service Fa) as Fa'.
  destruct (available status >=? estimatedDownloadSize r) eqn:Hge; cbn [negb] in *.
  { destruct (Hperm sa newa Ta Fa' Htoast). }
  destruct (respects_canDownloadWithCleanup (fun u => u) (estimatedDownloadSize r) sa)
    as [(newb & Tb & Fb) _].
  destruct (canDownloadWithCleanup (estimatedDownloadSize r) sa) as [[d | e] sb];
    cbn [snd] in *.
  2: { exfalso.
       assert (T : trace sb = trace s ++ newa ++ newb) by (rewrite Tb, Ta; trace_eq).
       rewrite (events_since_app _ _ _ T), !existsb_app in Htoast.
       rewrite (existsb_none _ _ _ (service_not_this_toast _) Fa') in Htoast.
       rewrite (existsb_none _ _ _ (service_not_this_toast _) Fb) in Htoast.
       discriminate. }
  destruct (negb (canDownload d)).
  2: { exfalso. apply (Hperm sb (newa ++ newb)) in Htoast; [exact Htoast | |].
       - rewrite Tb, Ta. trace_eq.
       - rewrite forallb_app, Fa', Fb. reflexivity. }
  cbn [fst snd ui trace] in *.
  match type of Htoast with
  | existsb _ (events_since s ?s2) = true =>
      assert (T : trace s2 = trace s ++ newa ++ newb
                             ++ [EvToast (ToastInsufficientSpace
                                            (estimatedDownloadSize r - available status))])
        by (cbn [trace]; rewrite Tb, Ta; trace_eq);
      rewrite (events_since_app s s2 _ T), !existsb_app in Htoast
  end.
  rewrite (existsb_none _ _ _ (service_not_this_toast _) Fa') in Htoast.
  rewrite (existsb_none _ _ _ (service_not_this_toast _) Fb) in Htoast.
  cbn in Htoast. rewrite orb_false_r in Htoast. apply Z.eqb_eq in Htoast.
  rewrite Z.geb_leb in Hge. apply Z.leb_gt in Hge.
  split; [reflexivity |]. split; [reflexivity |]. split; [lia |].
  eexists _, _. split; [reflexivity |]. split; [reflexivity |].
  cbn [shortageBytes]. lia.
Qed.

End PreflightExtras.

Lemma handleDownload_precondition_witness :
  precondition_fails ui_empty = true
  /\ exists s',
       handleDownload ui_empty state0 = (Ok tt, s')
       /\ events_since state0 s' = [EvToast ToastNoSelection]
       /\ host s' = host state0
       /\ localStorage s' = localStorage state0
       /\ ui s' = ui state0.
Proof.
  assert (Hpre : precondition_fails ui_empty = true) by reflexivity.
  split; [exact Hpre |].
  exact (handleDownload_precondition ui_empty state0 Hpre).
Defined.

Lemma checkStorageBeforeDownload_passes_witness :
  checkStorageBeforeDownload ui0 (with_host browser_persisted state0)
  = (Ok true, snd (checkStorageBeforeDownload ui0 (with_host browser_persisted state0)))
  /\ precondition_fails ui0 = false
  /\ ui (snd (checkStorageBeforeDownload ui0 (with_host browser_persisted state0)))
     = ui (with_host browser_persisted state0).
Proof.
  assert (Hpass : checkStorageBeforeDownload ui0 (with_host browser_persisted state0)
                  = (Ok true,
                     snd (checkStorageBeforeDownload ui0
                            (with_host browser_persisted state0))))
    by reflexivity.
  split; [exact Hpass |].
  destruct (checkStorageBeforeDownload_passes _ _ _ Hpass) as (Hpre & Hui & _).
  split; assumption.
Defined.

(** 6 MB are asked for with 2 MB available; the cleanup of
    [browser_unlocked] brings the available space to 5 MB only, and the
    toast reports the 4 MB that were missing before the cleanup. *)
Lemma checkStorageBeforeDownload_insufficient_witness :
  existsb (toast_is (ToastInsufficientSpace (4 * MB)))
          (events_since (with_host browser_unlocked state0)
             (snd (checkStorageBeforeDownload ui_large
                     (with_host browser_unlocked state0)))) = true
  /\ fst (checkStorageBeforeDownload ui_large (with_host browser_unlocked state0))
     = Ok false
  /\ 0 < 4 * MB.
Proof.
  assert (Htoast : existsb (toast_is (ToastInsufficientSpace (4 * MB)))
                     (events_since (with_host browser_unlocked state0)
                        (snd (checkStorageBeforeDownload ui_large
                                (with_host browser_unlocked state0)))) = true)
    by reflexivity.
  split; [exact Htoast |].
  destruct (checkStorageBeforeDownload_insufficient _ _ _ Htoast) as (Hret & _ & Hpos & _).
  split; assumption.
Defined.

(** ** Further properties of the download and of the reload *)

Section DownloadExtras.

Context {H : Type} `{HostAPI H} `{OfflineStorageService H}.

Lemma callbacks_frame {X : Type} (f : UI -> X)
  (callbacks : list (Z * DownloadProgress)) (u : UI) :
  (forall v w u0, f (with_downloadProgress v (with_overallProgress w u0)) = f u0) ->
  f (fold_left
       (fun u0 cb =>
          with_downloadProgress (Some (snd cb)) (with_overallProgress (fst cb) u0))
       callbacks u)
  = f u.
Proof.
  intros Hf. revert u.
  induction callbacks as [| cb callbacks IH]; intros u; cbn [fold_left].
  - reflexivity.
  - rewrite IH. apply Hf.
Qed.

Lemma reload_validate_chapters (downloaded validChapters : list Z) :
  respects reload_event outside_reload (validate_chapters downloaded validChapters).
Proof.
  revert validChapters.
  induction downloaded as [| chapterId rest IH]; intros validChapters;
    cbn [validate_chapters].
  - apply respects_ret.
  - apply respects_bind; [apply respects_host_call; reflexivity |].
    intros [|]; apply IH.
Qed.

Lemma reload_loadDownloadedChapters :
  respects reload_event outside_reload loadDownloadedChapters.
Proof.
  apply respects_try_catch.
  - apply respects_bind; [apply respects_host_call; reflexivity |]. intros downloaded.
    apply respects_bind; [apply respects_console; reflexivity |]. intros _.
    apply respects_bind; [apply respects_set_ui; reflexivity |]. intros _.
    apply respects_bind; [apply reload_validate_chapters |]. intros validChapters.
    destruct (negb (List.length validChapters =? List.length downloaded)%nat);
      [| apply respects_ret].
    apply respects_bind; [apply respects_console; reflexivity |]. intros _.
    apply respects_bind; [apply respects_host_call; reflexivity |]. intros _.
    apply respects_set_ui; reflexivity.
  - intros e. apply respects_bind; [apply respects_console; reflexivity |].
    intros _. apply respects_emit. reflexivity.
Qed.

Lemma reload_loadStorageInfo :
  respects reload_event outside_reload loadStorageInfo.
Proof.
  apply respects_try_catch.
  - apply respects_bind; [apply respects_host_call; reflexivity |]. intros info.
    apply respects_set_ui; reflexivity.
  - intros e. apply respects_console. reflexivity.
Qed.

Lemma loadDownloadedChapters_never_throws : never_throws loadDownloadedChapters.
Proof.
  apply never_throws_try_catch. intros e.
  apply never_throws_bind; [apply never_throws_emit | intros _; apply never_throws_emit].
Qed.

Lemma loadStorageInfo_never_throws : never_throws loadStorageInfo.
Proof.
  apply never_throws_try_catch. intros e. apply never_throws_emit.
Qed.

Lemma reload_not_download (e : Event) :
  reload_event e = true -> download_started e = false.
Proof. destruct e; cbn; congruence. Qed.

(** What the body of [handleDownload] does once the pre-flight has passed. *)
Lemma start_download_run (r : UI) (s1 : State H) :
  exists s' res rest,
    start_download r s1 = (Ok tt, s')
    /\ isDownloading (ui s') = false
    /\ downloadProgress (ui s') = None
    /\ overallProgress (ui s') = 0
    /\ trace s' = trace s1 ++ EvDownloadMultiple (selectedChapters r) res :: rest
    /\ existsb download_started rest = false
    /\ match res with
       | Ok _ =>
           selectedChapters (ui s') = []
           /\ exists reload,
                rest = EvToast (ToastDownloadDone (List.length (selectedChapters r)))
                       :: reload
                /\ forallb reload_event reload = true
       | Thrown e =>
           rest = [EvConsole err (MsgDownloadFailed e); EvToast ToastDownloadFailed]
           /\ selectedChapters (ui s') = selectedChapters (ui s1)
           /\ downloadedChapters (ui s') = downloadedChapters (ui s1)
       end.
Proof.
  unfold start_download, try_finally, try_catch, call_downloadMultipleChapters,
    bind, set_ui, toast, console, emit, ret.
  cbn [host localStorage ui trace].
  destruct (downloadMultipleChapters (selectedChapters r) (host s1))
    as [[callbacks [[] | e]] h'].
  - match goal with
    | |- context [loadDownloadedChapters ?s2] =>
        destruct (loadDownloadedChapters_never_throws s2) as ([] & s3 & E3);
        destruct (reload_loadDownloadedChapters s2) as [(new3 & T3 & F3) U3];
        rewrite E3 in *; cbn [snd] in T3, U3
    end.
    destruct (loadStorageInfo_never_throws s3) as ([] & s4 & E4).
    destruct (reload_loadStorageInfo s3) as [(new4 & T4 & F4) U4].
    rewrite E4 in *. cbn [snd] in T4, U4.
    cbn [ui trace] in *.
    eexists _, (Ok tt), _. split; [reflexivity |].
    cbn [ui isDownloading downloadProgress overallProgress selectedChapters
         with_overallProgress with_downloadProgress with_isDownloading trace].
    split; [reflexivity |]. split; [reflexivity |]. split; [reflexivity |].
    assert (T : trace s4
                = trace s1
                  ++ EvDownloadMultiple (selectedChapters r) (Ok tt)
                  :: EvToast (ToastDownloadDone (List.length (selectedChapters r)))
                  :: new3 ++ new4)
      by (rewrite T4, T3; trace_eq).
    split; [exact T |].
    assert (F : forallb reload_event (new3 ++ new4) = true)
      by (rewrite forallb_app, F3, F4; reflexivity).
    split; [cbn [existsb download_started orb];
            apply (existsb_none _ _ _ reload_not_download F) |].
    split.
    + apply (f_equal selectedChapters) in U3, U4. cbn in U3, U4 |- *. congruence.
    + exists (new3 ++ new4). split; [reflexivity | exact F].
  - eexists _, (Thrown e), _. split; [reflexivity |].
    cbn [snd ui isDownloading downloadProgress overallProgress selectedChapters
         downloadedChapters with_overallProgress with_downloadProgress
         with_isDownloading trace].
    split; [reflexivity |]. split; [reflexivity |]. split; [reflexivity |].
    split; [trace_eq |]. split; [reflexivity |]. split; [reflexivity |].
    split.
    + rewrite (callbacks_frame selectedChapters) by reflexivity. reflexivity.
    + rewrite (callbacks_frame downloadedChapters) by reflexivity. reflexivity.
Qed.

Lemma service_is_precheck (e : Event) : service_event e = true -> precheck_event e = true.
Proof. destruct e; cbn; congruence. Qed.

Lemma precheck_checkStorageBeforeDownload (r : UI) :
  respects precheck_event (with_storagePermissionOpen false)
           (checkStorageBeforeDownload r).
Proof.
  assert (Hprobe : forall e, probe_event e = true -> precheck_event e = true)
    by (intros e He; apply service_is_precheck, probe_is_service, He).
  unfold checkStorageBeforeDownload.
  destruct (List.length (selectedChapters r) =? 0)%nat.
  { apply respects_bind; [apply respects_emit; reflexivity | intros _; apply respects_ret]. }
  destruct (negb (isOnline r)).
  { apply respects_bind; [apply respects_emit; reflexivity | intros _; apply respects_ret]. }
  apply respects_bind.
  { eapply respects_weaken; [exact Hprobe | apply respects_checkAvailableSpace]. }
  intros c.
  assert (Hperm : respects precheck_event (with_storagePermissionOpen false)
                           check_persistence)
    by (eapply respects_weaken; [exact Hprobe | apply respects_check_persistence]).
  destruct (negb (hasEnoughSpace c)); [| exact Hperm].
  apply respects_bind.
  { eapply respects_weaken; [exact service_is_precheck
                            | apply respects_canDownloadWithCleanup]. }
  intros d. destruct (negb (canDownload d)); [| exact Hperm].
  apply respects_bind; [apply respects_emit; reflexivity |]. intros _.
  apply respects_bind; [apply respects_set_ui; reflexivity |]. intros _.
  apply respects_ret.
Qed.

Lemma precheck_not_download (e : Event) :
  precheck_event e = true -> download_started e = false.
Proof. destruct e; cbn; congruence. Qed.

(** The two ways a run of [handleDownload] can go. *)
Lemma handleDownload_run (r : UI) (s : State H) :
  exists b s1 pre,
    checkStorageBeforeDownload r s = (Ok b, s1)
    /\ trace s1 = trace s ++ pre
    /\ forallb precheck_event pre = true
    /\ with_storagePermissionOpen false (ui s1) = with_storagePermissionOpen false (ui s)
    /\ handleDownload r s = if b then start_download r s1 else (Ok tt, s1).
Proof.
  destruct (checkStorageBeforeDownload_never_throws r s) as (b & s1 & E).
  destruct (precheck_checkStorageBeforeDownload r s) as [(pre & T & F) U].
  rewrite E in T, U. cbn [snd] in T, U.
  exists b, s1, pre. repeat (split; [assumption |]).
  unfold handleDownload, bind. rewrite E. destruct b; reflexivity.
Qed.

(** X17: [handleDownload] never throws.  Once [downloadMultipleChapters]
    has been called, whether it resolves or rejects, the run ends with
    [isDownloading = false], no current progress and an overall progress of
    0; when it has not been called, nothing but the flag of the permission
    dialog has changed in the component state. *)
Theorem handleDownload_resets_progress (r : UI) (s : State H) :
  exists s',
    handleDownload r s = (Ok tt, s')
    /\ if existsb download_started (events_since s s') then
         isDownloading (ui s') = false
         /\ downloadProgress (ui s') = None
         /\ overallProgress (ui s') = 0
       else
         with_storagePermissionOpen false (ui s')
         = with_storagePermissionOpen false (ui s).
Proof.
  destruct (handleDownload_run r s) as (b & s1 & pre & _ & T1 & F1 & U1 & Erun).
  rewrite Erun. destruct b.
  - destruct (start_download_run r s1)
      as (s' & res & rest & E & Hd & Hp & Ho & T & _).
    exists s'. split; [exact E |].
    assert (T' : trace s' = trace s ++ pre
                            ++ EvDownloadMultiple (selectedChapters r) res :: rest)
      by (rewrite T, T1; trace_eq).
    rewrite (events_since_app _ _ _ T'), existsb_app.
    cbn [existsb download_started]. rewrite orb_true_r.
    repeat split; assumption.
  - exists s1. split; [reflexivity |].
    rewrite (events_since_app _ _ _ T1).
    rewrite (existsb_none _ _ _ precheck_not_download F1). exact U1.
Qed.

(** X18: in one run [handleDownload] calls [downloadMultipleChapters] at
    most once, and only for the chapter ids that were selected when the
    click was handled. *)
Theorem handleDownload_downloads_selection_once (r : UI) (s : State H) :
  (count download_started (events_since s (snd (handleDownload r s))) <= 1)%nat
  /\ forallb (downloads_selection (selectedChapters r))
             (events_since s (snd (handleDownload r s))) = true.
Proof.
  assert (Hsel : forall (P : Event -> bool) t,
             (forall e, P e = true -> download_started e = false) ->
             forallb P t = true ->
             forallb (downloads_selection (selectedChapters r)) t = true).
  { intros P t HP Ht. apply forallb_forall. intros e He.
    rewrite forallb_forall in Ht. specialize (HP e (Ht e He)).
    destruct e; try reflexivity. discriminate. }
  assert (Hnone : forall t, existsb download_started t = false ->
                            count download_started t = 0%nat
                            /\ forallb (downloads_selection (selectedChapters r)) t = true).
  { induction t as [| e t IH]; cbn [existsb]; intros Hex; [split; reflexivity |].
    apply orb_false_iff in Hex as [He Ht]. destruct (IH Ht) as [IHc IHf].
    unfold count in *. cbn [filter forallb]. rewrite He, IHf.
    split; [exact IHc |]. destruct e; try reflexivity. discriminate. }
  destruct (handleDownload_run r s) as (b & s1 & pre & _ & T1 & F1 & _ & Erun).
  rewrite Erun. destruct b.
  - destruct (start_download_run r s1)
      as (s' & res & rest & E & _ & _ & _ & T & Frest & _).
    rewrite E. cbn [snd].
    assert (T' : trace s' = trace s ++ pre
                            ++ EvDownloadMultiple (selectedChapters r) res :: rest)
      by (rewrite T, T1; trace_eq).
    rewrite (events_since_app _ _ _ T').
    destruct (Hnone rest Frest) as [Hc Hf].
    change (EvDownloadMultiple (selectedChapters r) res :: rest)
      with ([EvDownloadMultiple (selectedChapters r) res] ++ rest).
    rewrite !count_app, !forallb_app, Hc, Hf.
    rewrite (count_none _ _ _ precheck_not_download F1).
    rewrite (Hsel _ _ precheck_not_download F1).
    cbn. destruct (list_eq_dec Z.eq_dec (selectedChapters r) (selectedChapters r));
      [split; [lia | reflexivity] | contradiction].
  - cbn [snd]. rewrite (events_since_app _ _ _ T1).
    rewrite (count_none _ _ _ precheck_not_download F1).
    rewrite (Hsel _ _ precheck_not_download F1). split; [lia | reflexivity].
Qed.

Lemma precheck_not_outcome (t : Toast)
  (Ht : t = ToastDownloadFailed \/ exists n, t = ToastDownloadDone n) (e : Event) :
  precheck_event e = true -> toast_is t e = false.
Proof.
  intros He. destruct e; try reflexivity.
  destruct Ht as [-> | [n ->]]; destruct t0; try reflexivity; discriminate.
Qed.

Lemma reload_not_outcome (t : Toast)
  (Ht : t = ToastDownloadFailed \/ exists n, t = ToastDownloadDone n) (e : Event) :
  reload_event e = true -> toast_is t e = false.
Proof.
  intros He. destruct e; try reflexivity.
  destruct Ht as [-> | [n ->]]; destruct t0; try reflexivity; discriminate.
Qed.

Lemma precheck_not_rejected (e : Event) :
  precheck_event e = true -> download_rejected e = false.
Proof. destruct e; cbn; congruence. Qed.

Lemma reload_not_rejected (e : Event) :
  reload_event e = true -> download_rejected e = false.
Proof. destruct e; cbn; congruence. Qed.

(** X19: how a started download ends.  If [downloadMultipleChapters]
    rejects, the failure toast is shown, no success toast is, and the
    selection and the list of downloaded chapters stay as they were.  If it
    resolves, the selection is cleared and the success toast announces as
    many chapters as were selected; no failure toast is shown. *)
Theorem handleDownload_outcome (r : UI) (s : State H) :
  let s' := snd (handleDownload r s) in
  let done := ToastDownloadDone (List.length (selectedChapters r)) in
  if existsb download_rejected (events_since s s') then
    existsb (toast_is ToastDownloadFailed) (events_since s s') = true
    /\ existsb (toast_is done) (events_since s s') = false
    /\ selectedChapters (ui s') = selectedChapters (ui s)
    /\ downloadedChapters (ui s') = downloadedChapters (ui s)
  else if existsb download_started (events_since s s') then
    existsb (toast_is done) (events_since s s') = true
    /\ existsb (toast_is ToastDownloadFailed) (events_since s s') = false
    /\ selectedChapters (ui s') = []
  else True.
Proof.
  cbv zeta.
  destruct (handleDownload_run r s) as (b & s1 & pre & _ & T1 & F1 & U1 & Erun).
  rewrite Erun. destruct b.
  - destruct (start_download_run r s1)
      as (s' & res & rest & E & _ & _ & _ & T & Frest & Hres).
    rewrite E. cbn [snd].
    assert (T' : trace s' = trace s ++ pre
                            ++ [EvDownloadMultiple (selectedChapters r) res] ++ rest)
      by (rewrite T, T1; trace_eq).
    rewrite (events_since_app _ _ _ T'), !existsb_app.
    rewrite (existsb_none _ _ _ precheck_not_rejected F1).
    rewrite (existsb_none _ _ _ precheck_not_download F1).
    rewrite (existsb_none _ _ _ (precheck_not_outcome _ (or_introl eq_refl)) F1).
    rewrite (existsb_none _ _ _
               (precheck_not_outcome _ (or_intror (ex_intro _ _ eq_refl))) F1).
    destruct res as [[] | e].
    + destruct Hres as (Hsel & reload & -> & Freload).
      cbn [existsb download_rejected download_started toast_is orb].
      rewrite (existsb_none _ _ _ reload_not_rejected Freload).
      rewrite (existsb_none _ _ _ (reload_not_outcome _ (or_introl eq_refl)) Freload).
      rewrite Nat.eqb_refl. cbn [orb].
      repeat split. exact Hsel.
    + destruct Hres as (-> & Hsel & Hdl).
      cbn [existsb download_rejected toast_is orb].
      apply (f_equal selectedChapters) in U1 as Us.
      apply (f_equal downloadedChapters) in U1 as Ud.
      cbn in Us, Ud. repeat split; congruence.
  - cbn [snd]. rewrite (events_since_app _ _ _ T1).
    rewrite (existsb_none _ _ _ precheck_not_rejected F1).
    rewrite (existsb_none _ _ _ precheck_not_download F1). exact I.
Qed.

End DownloadExtras.

Lemma valid_ids_app (t1 t2 : list Event) :
  valid_ids (t1 ++ t2) = valid_ids t1 ++ valid_ids t2.
Proof.
  induction t1 as [| e t1 IH]; [reflexivity |].
  destruct e as [| | | | | | | | | | | id [[|] | ex] | |]; cbn [app valid_ids];
    rewrite ?IH; reflexivity.
Qed.

Lemma valid_ids_all (evs : list Event) :
  forallb validation_answer evs = true ->
  existsb invalid_seen evs = false ->
  valid_ids evs = asked_ids evs.
Proof.
  induction evs as [| e evs IH]; [reflexivity |].
  destruct e as [| | | | | | | | | | | id [[|] | ex] | |];
    cbn [forallb existsb validation_answer invalid_seen andb orb valid_ids asked_ids];
    intros Hans Hinv; try discriminate.
  rewrite IH by assumption. reflexivity.
Qed.

Lemma valid_ids_length (evs : list Event) :
  forallb validation_answer evs = true ->
  (List.length (valid_ids evs) <= List.length (asked_ids evs))%nat
  /\ (List.length (valid_ids evs) =? List.length (asked_ids evs))%nat
     = negb (existsb invalid_seen evs).
Proof.
  induction evs as [| e evs IH]; [intros _; split; reflexivity |].
  destruct e as [| | | | | | | | | | | id [[|] | ex] | |];
    cbn [forallb existsb validation_answer invalid_seen andb orb valid_ids asked_ids
         List.length];
    intros Hans; try discriminate; destruct (IH Hans) as [Hle Heq].
  - split; [lia |]. cbn [Nat.eqb]. exact Heq.
  - split; [lia |]. cbn [negb]. apply Nat.eqb_neq. lia.
Qed.

Section ReloadExtras.

Context {H : Type} `{HostAPI H} `{OfflineStorageService H}.

Lemma validate_chapters_cases (downloaded validChapters : list Z) (s : State H) :
  (exists s' evs,
      validate_chapters downloaded validChapters s
      = (Ok (validChapters ++ valid_ids evs), s')
      /\ trace s' = trace s ++ evs
      /\ forallb validation_answer evs = true
      /\ asked_ids evs = downloaded
      /\ ui s' = ui s)
  \/ (exists e s' done bad,
         validate_chapters downloaded validChapters s = (Thrown e, s')
         /\ trace s' = trace s ++ done ++ [bad]
         /\ forallb validation_answer done = true
         /\ service_failure bad = true
         /\ ui s' = ui s).
Proof.
  revert validChapters s.
  induction downloaded as [| chapterId rest IH]; intros validChapters s.
  - left. exists s, []. cbn. rewrite !app_nil_r. repeat split.
  - cbn [validate_chapters]. unfold bind, host_call.
    destruct (isChapterDownloaded chapterId (host s)) as [[isValid | e] h1].
    + assert (Hstep :
          forall acc,
            validChapters ++ valid_ids [EvIsDownloaded chapterId (Ok isValid)] = acc ->
            (exists s' evs,
                validate_chapters rest acc
                  (mkState h1 (localStorage s) (ui s)
                           (trace s ++ [EvIsDownloaded chapterId (Ok isValid)]))
                = (Ok (validChapters ++ valid_ids evs), s')
                /\ trace s' = trace s ++ evs
                /\ forallb validation_answer evs = true
                /\ asked_ids evs = chapterId :: rest
                /\ ui s' = ui s)
            \/ (exists e s' done bad,
                   validate_chapters rest acc
                     (mkState h1 (localStorage s) (ui s)
                              (trace s ++ [EvIsDownloaded chapterId (Ok isValid)]))
                   = (Thrown e, s')
                   /\ trace s' = trace s ++ done ++ [bad]
                   /\ forallb validation_answer done = true
                   /\ service_failure bad = true
                   /\ ui s' = ui s)).
      { intros acc Hacc.
        match goal with
        | |- context [validate_chapters rest acc ?s1] =>
            destruct (IH acc s1)
              as [(s' & evs & E & T & F & A & U)
                 | (e & s' & done & bad & E & T & F & B & U)]
        end; cbn [trace ui] in *.
        - left. exists s', (EvIsDownloaded chapterId (Ok isValid) :: evs).
          split.
          { rewrite E. f_equal. f_equal. subst acc.
            change (EvIsDownloaded chapterId (Ok isValid) :: evs)
              with ([EvIsDownloaded chapterId (Ok isValid)] ++ evs).
            rewrite valid_ids_app, app_assoc. reflexivity. }
          split; [rewrite T; trace_eq |].
          split; [cbn; exact F |].
          split; [cbn; rewrite A; reflexivity | exact U].
        - right. exists e, s', (EvIsDownloaded chapterId (Ok isValid) :: done), bad.
          split; [exact E |].
          split; [rewrite T; trace_eq |].
          split; [cbn; exact F |]. split; assumption. }
      destruct isValid; apply Hstep; cbn [valid_ids]; [reflexivity |].
      apply app_nil_r.
    + right. exists e. eexists. exists [], (EvIsDownloaded chapterId (Thrown e)).
      repeat split.
Qed.

Lemma answer_not_failure (e : Event) :
  validation_answer e = true -> service_failure e = false.
Proof. destruct e as [| | | | | | | | | | | ? [] | |]; cbn; congruence. Qed.

Lemma answer_not_rewrite (e : Event) :
  validation_answer e = true -> list_rewritten e = false.
Proof. destruct e; cbn; congruence. Qed.

Lemma answer_not_toast (e : Event) :
  validation_answer e = true -> is_toast e = false.
Proof. destruct e; cbn; congruence. Qed.

(** X20: [loadDownloadedChapters] never throws.  When no call of the
    offline storage service fails, the list it leaves in the component is
    exactly the ids that validated in this run, in the order of the stored
    list; the stored list is rewritten once if some id failed validation
    and not at all otherwise, and no toast is shown.  When a call fails, the
    failure toast is shown. *)
Theorem loadDownloadedChapters_reconciles (s : State H) :
  exists s',
    loadDownloadedChapters s = (Ok tt, s')
    /\ if existsb service_failure (events_since s s') then
         existsb (toast_is ToastLoadListFailed) (events_since s s') = true
       else
         downloadedChapters (ui s') = valid_ids (events_since s s')
         /\ count list_rewritten (events_since s s')
            = (if existsb invalid_seen (events_since s s') then 1 else 0)%nat
         /\ existsb is_toast (events_since s s') = false.
Proof.
  unfold loadDownloadedChapters, try_catch, bind at 1, host_call.
  destruct (getDownloadedChapters (host s)) as [[downloaded | e] h1].
  2: { unfold bind, console, toast, emit, ret.
       eexists. split; [reflexivity |]. events_simpl. reflexivity. }
  unfold bind at 1, console at 1, emit at 1.
  unfold bind at 1, set_ui at 1. cbn [host localStorage ui trace].
  unfold bind at 1.
  match goal with
  | |- context [validate_chapters downloaded [] ?s1] =>
      destruct (validate_chapters_cases downloaded [] s1)
        as [(s2 & evs & E & T & F & A & U)
           | (e & s2 & done & bad & E & T & F & B & U)]
  end; rewrite E; cbn [trace ui app] in *.
  2: { unfold bind, console, toast, emit, ret.
       eexists. split; [reflexivity |].
       match goal with
       | |- context [events_since s ?s3] =>
           assert (T3 : trace s3
                        = trace s
                          ++ [EvGetDownloaded (Ok downloaded);
                              EvConsole log (MsgDownloadedList downloaded)]
                          ++ done
                          ++ [bad; EvConsole err (MsgLoadListFailed e);
                              EvToast ToastLoadListFailed])
             by (cbn [trace]; rewrite T; trace_eq);
           rewrite (events_since_app s s3 _ T3)
       end.
       rewrite !existsb_app. cbn [existsb service_failure toast_is orb].
       rewrite B, !orb_true_r. reflexivity. }
  destruct (valid_ids_length evs F) as [_ Hlen].
  rewrite A in Hlen. rewrite Hlen, negb_involutive.
  pose proof (existsb_none _ _ _ answer_not_failure F) as Fnofail.
  pose proof (existsb_none _ _ _ answer_not_toast F) as Fnotoast.
  pose proof (count_none _ _ _ answer_not_rewrite F) as Fnorewrite.
  destruct (existsb invalid_seen evs) eqn:Hinv.
  - unfold bind at 1, console at 1, emit at 1.
    unfold bind at 1, host_call. cbn [host localStorage ui trace].
    destruct (updateDownloadedChapters (valid_ids evs) (host s2)) as [[[] | e] h3].
    + unfold set_ui. eexists. split; [reflexivity |].
      match goal with
      | |- context [events_since s ?s3] =>
          assert (T3 : trace s3
                       = trace s
                         ++ [EvGetDownloaded (Ok downloaded);
                             EvConsole log (MsgDownloadedList downloaded)]
                         ++ evs
                         ++ [EvConsole log MsgListRevalidated;
                             EvUpdateDownloaded (valid_ids evs) (Ok tt)])
            by (cbn [trace]; rewrite T; trace_eq);
          rewrite (events_since_app s s3 _ T3)
      end.
      rewrite !existsb_app, !count_app, !valid_ids_app, Fnofail, Fnotoast, Hinv,
        Fnorewrite.
      cbn. rewrite app_nil_r. repeat split.
    + unfold bind, console, toast, emit, ret.
      eexists. split; [reflexivity |].
      match goal with
      | |- context [events_since s ?s3] =>
          assert (T3 : trace s3
                       = trace s
                         ++ [EvGetDownloaded (Ok downloaded);
                             EvConsole log (MsgDownloadedList downloaded)]
                         ++ evs
                         ++ [EvConsole log MsgListRevalidated;
                             EvUpdateDownloaded (valid_ids evs) (Thrown e);
                             EvConsole err (MsgLoadListFailed e);
                             EvToast ToastLoadListFailed])
            by (cbn [trace]; rewrite T; trace_eq);
          rewrite (events_since_app s s3 _ T3)
      end.
      rewrite !existsb_app. cbn [existsb service_failure toast_is orb].
      rewrite !orb_true_r. reflexivity.
  - unfold ret. exists s2. split; [reflexivity |].
    assert (T3 : trace s2
                 = trace s
                   ++ [EvGetDownloaded (Ok downloaded);
                       EvConsole log (MsgDownloadedList downloaded)]
                   ++ evs)
      by (rewrite T; trace_eq).
    rewrite (events_since_app s s2 _ T3).
    rewrite !existsb_app, !count_app, !valid_ids_app, Fnofail, Fnotoast, Hinv,
      Fnorewrite.
    cbn. rewrite U. cbn.
    rewrite (valid_ids_all evs F Hinv), A. repeat split.
Qed.

End ReloadExtras.

(** In [browser_registry] three chapters are registered and all validate. *)
Example loadDownloadedChapters_registry :
  downloadedChapters (ui (snd (loadDownloadedChapters (with_host browser_registry state0))))
  = [1; 2; 3].
Proof. vm_compute. reflexivity. Qed.

(** ** Properties of the selection handling *)

Lemma includes_id_In (ids : list Z) (id : Z) :
  includes_id ids id = true <-> In id ids.
Proof.
  unfold includes_id. rewrite existsb_exists. split.
  - intros (x & Hin & Heq). apply Z.eqb_eq in Heq. subst. exact Hin.
  - intros Hin. exists id. split; [exact Hin | apply Z.eqb_refl].
Qed.

Lemma filter_keeps_others (id : Z) (ids : list Z) :
  ~ In id ids -> filter (fun x => negb (x =? id)) ids = ids.
Proof.
  induction ids as [| x ids IH]; cbn [filter In]; intros Hnot; [reflexivity |].
  destruct (Z.eqb_spec x id) as [-> | Hne]; cbn [negb].
  - exfalso. apply Hnot. left. reflexivity.
  - rewrite IH by tauto. reflexivity.
Qed.

(** X21: what ticking and unticking a chapter does to the selection: a
    ticked chapter is added to what was selected, and after unticking, the
    chapter is not selected any more (every occurrence is removed) while all
    other chapters stay selected; nothing else of the component state
    changes. *)
Theorem handleChapterSelect_membership (chapterId : Z) (checked : bool) (id : Z) (u : UI) :
  (In id (selectedChapters (handleChapterSelect chapterId checked u))
   <-> if checked then In id (selectedChapters u) \/ id = chapterId
       else In id (selectedChapters u) /\ id <> chapterId)
  /\ with_selectedChapters [] (handleChapterSelect chapterId checked u)
     = with_selectedChapters [] u.
Proof.
  unfold handleChapterSelect. destruct checked; cbn [selectedChapters with_selectedChapters].
  - split; [| reflexivity]. rewrite in_app_iff. cbn [In]. intuition congruence.
  - split; [| reflexivity]. rewrite filter_In, negb_true_iff, Z.eqb_neq. tauto.
Qed.

(** X22: ticking a chapter that was not selected and unticking it again
    gives back the component state one started from. *)
Theorem handleChapterSelect_round_trip (chapterId : Z) (u : UI)
  (Hnew : ~ In chapterId (selectedChapters u)) :
  handleChapterSelect chapterId false (handleChapterSelect chapterId true u) = u.
Proof.
  unfold handleChapterSelect. destruct u as [sel dl isd dp op si on iv spo eds].
  cbn in *. unfold with_selectedChapters. cbn. f_equal.
  rewrite filter_app, (filter_keeps_others _ _ Hnew). cbn [filter].
  rewrite Z.eqb_refl. cbn [negb]. apply app_nil_r.
Qed.

Lemma handleChapterSelect_round_trip_witness :
  ~ In 3 (selectedChapters ui0)
  /\ handleChapterSelect 3 false (handleChapterSelect 3 true ui0) = ui0.
Proof.
  assert (Hnew : ~ In 3 (selectedChapters ui0))
    by (cbn; intros [Heq | [Heq | []]]; discriminate).
  split; [exact Hnew |].
  exact (handleChapterSelect_round_trip 3 ui0 Hnew).
Defined.

(** X23: "select all" never selects a chapter that is already downloaded,
    nor an id that is not a chapter: whatever it selects is an id of the
    chapter list that is absent from [downloadedChapters]. *)
Theorem handleSelectAll_selects_undownloaded (chapters : list Chapter) (u : UI) (id : Z)
  (Hselected : In id (selectedChapters (handleSelectAll (Some chapters) u))) :
  In id (map chapter_id chapters) /\ ~ In id (downloadedChapters u).
Proof.
  unfold handleSelectAll in Hselected.
  destruct (List.length (selectedChapters u) =? _)%nat;
    cbn [selectedChapters with_selectedChapters] in Hselected.
  - destruct Hselected.
  - apply filter_In in Hselected as [Hin Hnot].
    split; [exact Hin |].
    apply negb_true_iff in Hnot. intros Hdl.
    apply includes_id_In in Hdl. congruence.
Qed.

(** X24: starting from an empty selection, "select all" selects exactly the
    chapters that are not downloaded, in the order of the chapter list, and
    pressing it a second time clears the selection again; the other parts
    of the component state are not touched, and without chapter data the
    button does nothing. *)
Theorem handleSelectAll_toggles (chapters : list Chapter) (u : UI)
  (Hempty : selectedChapters u = []) :
  selectedChapters (handleSelectAll (Some chapters) u)
  = filter (fun id => negb (includes_id (downloadedChapters u) id))
           (map chapter_id chapters)
  /\ selectedChapters
       (handleSelectAll (Some chapters) (handleSelectAll (Some chapters) u)) = []
  /\ with_selectedChapters [] (handleSelectAll (Some chapters) u)
     = with_selectedChapters [] u
  /\ handleSelectAll None u = u.
Proof.
  assert (Hfirst :
            selectedChapters (handleSelectAll (Some chapters) u)
            = filter (fun id => negb (includes_id (downloadedChapters u) id))
                     (map chapter_id chapters)
            /\ downloadedChapters (handleSelectAll (Some chapters) u)
               = downloadedChapters u
            /\ with_selectedChapters [] (handleSelectAll (Some chapters) u)
               = with_selectedChapters [] u).
  { unfold handleSelectAll. rewrite Hempty. cbn [List.length].
    destruct (filter _ (map chapter_id chapters)) as [| x l] eqn:Hund;
      cbn [Nat.eqb List.length]; repeat split. }
  destruct Hfirst as (Hsel & Hdl & Hrest).
  split; [exact Hsel |]. split; [| split; [exact Hrest | reflexivity]].
  unfold handleSelectAll at 1. rewrite Hdl, Hsel, Nat.eqb_refl. reflexivity.
Qed.

Lemma handleSelectAll_selects_undownloaded_witness :
  In 2 (selectedChapters
          (handleSelectAll
             (Some [ {| chapter_id := 1; verses_count := 7 |};
                     {| chapter_id := 2; verses_count := 286 |} ])
             (with_downloadedChapters [1] ui_empty)))
  /\ In 2 (map chapter_id [ {| chapter_id := 1; verses_count := 7 |};
                            {| chapter_id := 2; verses_count := 286 |} ])
  /\ ~ In 2 (downloadedChapters (with_downloadedChapters [1] ui_empty)).
Proof.
  assert (Hsel : In 2 (selectedChapters
                         (handleSelectAll
                            (Some [ {| chapter_id := 1; verses_count := 7 |};
                                    {| chapter_id := 2; verses_count := 286 |} ])
                            (with_downloadedChapters [1] ui_empty))))
    by (cbn; auto).
  split; [exact Hsel |].
  exact (handleSelectAll_selects_undownloaded _ _ _ Hsel).
Defined.

Lemma handleSelectAll_toggles_witness :
  selectedChapters ui_empty = []
  /\ selectedChapters
       (handleSelectAll
          (Some [ {| chapter_id := 1; verses_count := 7 |};
                  {| chapter_id := 2; verses_count := 286 |} ]) ui_empty) = [1; 2]
  /\ selectedChapters
       (handleSelectAll
          (Some [ {| chapter_id := 1; verses_count := 7 |};
                  {| chapter_id := 2; verses_count := 286 |} ])
          (handleSelectAll
             (Some [ {| chapter_id := 1; verses_count := 7 |};
                     {| chapter_id := 2; verses_count := 286 |} ]) ui_empty)) = [].
Proof.
  assert (Hempty : selectedChapters ui_empty = []) by reflexivity.
  split; [exact Hempty |].
  destruct (handleSelectAll_toggles
              [ {| chapter_id := 1; verses_count := 7 |};
                {| chapter_id := 2; verses_count := 286 |} ] ui_empty Hempty)
    as (Hfirst & Hsecond & _).
  split; [exact Hfirst | exact Hsecond].
Defined.

Lemma estimate_filter_bounds (p : Chapter -> bool) (chapters : list Chapter) :
  Forall (fun c => 0 <= verses_count c) chapters ->
  0 <= estimateMultipleChaptersSize (filter p chapters)
  <= estimateMultipleChaptersSize chapters.
Proof.
  unfold estimateMultipleChaptersSize. rewrite !fold_estimate_shift.
  induction 1 as [| c chapters Hc Hall IH]; cbn [filter map list_sum_Z]; [lia |].
  assert (0 <= estimateChapterSize (verses_count c))
    by (unfold estimateChapterSize, averageBytesPerVerse, chapterMetadata; lia).
  destruct (p c); cbn [map list_sum_Z]; lia.
Qed.

(** X25: the estimated download size depends only on which chapter ids are
    selected: two selections with the same members, in any order and with
    any repetitions, get the same estimate. *)
Theorem updateEstimatedDownloadSize_membership
  (chaptersData : option (list Chapter)) (u1 u2 : UI)
  (Hsame : forall id, In id (selectedChapters u1) <-> In id (selectedChapters u2)) :
  estimatedDownloadSize (updateEstimatedDownloadSize chaptersData u1)
  = estimatedDownloadSize (updateEstimatedDownloadSize chaptersData u2).
Proof.
  unfold updateEstimatedDownloadSize.
  destruct chaptersData as [chapters |]; [| reflexivity].
  assert (Hfilter :
            filter (fun c => includes_id (selectedChapters u1) (chapter_id c)) chapters
            = filter (fun c => includes_id (selectedChapters u2) (chapter_id c)) chapters).
  { apply filter_ext. intros c.
    destruct (includes_id (selectedChapters u1) (chapter_id c)) eqn:H1,
             (includes_id (selectedChapters u2) (chapter_id c)) eqn:H2;
      try reflexivity.
    - apply includes_id_In, Hsame, includes_id_In in H1. congruence.
    - apply includes_id_In, Hsame, includes_id_In in H2. congruence. }
  destruct (selectedChapters u1) as [| x1 l1] eqn:E1,
           (selectedChapters u2) as [| x2 l2] eqn:E2;
    cbn [List.length Nat.ltb Nat.leb estimatedDownloadSize with_estimatedDownloadSize].
  - reflexivity.
  - exfalso. apply (proj2 (Hsame x2)). left. reflexivity.
  - exfalso. apply (proj1 (Hsame x1)). left. reflexivity.
  - rewrite Hfilter. reflexivity.
Qed.

(** X26: when no chapter has a negative verse count, the estimated download
    size lies between 0 and the estimate of the whole chapter list; it is 0
    when nothing is selected or the chapter data is missing. *)
Theorem updateEstimatedDownloadSize_bounds
  (chaptersData : option (list Chapter)) (u : UI)
  (Hverses : match chaptersData with
             | Some chapters => Forall (fun c => 0 <= verses_count c) chapters
             | None => True
             end) :
  0 <= estimatedDownloadSize (updateEstimatedDownloadSize chaptersData u)
    <= match chaptersData with
       | Some chapters => estimateMultipleChaptersSize chapters
       | None => 0
       end
  /\ match selectedChapters u, chaptersData with
     | [], _ | _, None =>
         estimatedDownloadSize (updateEstimatedDownloadSize chaptersData u) = 0
     | _, _ => True
     end
  /\ with_estimatedDownloadSize 0 (updateEstimatedDownloadSize chaptersData u)
     = with_estimatedDownloadSize 0 u.
Proof.
  unfold updateEstimatedDownloadSize.
  destruct chaptersData as [chapters |].
  - pose proof (estimate_filter_bounds
                  (fun c => includes_id (selectedChapters u) (chapter_id c))
                  chapters Hverses) as Hb.
    pose proof (estimate_filter_bounds (fun _ => false) chapters Hverses) as Hall.
    destruct (selectedChapters u) eqn:Hsel;
      cbn [List.length Nat.ltb Nat.leb estimatedDownloadSize with_estimatedDownloadSize].
    + split; [| split; reflexivity].
      replace (filter (fun _ : Chapter => false) chapters) with (@nil Chapter) in Hall
        by (clear; induction chapters; cbn; auto).
      cbn in Hall. lia.
    + split; [exact Hb |]. split; [exact I | reflexivity].
  - destruct (selectedChapters u); cbn; (split; [lia |]; split; reflexivity).
Qed.

Lemma updateEstimatedDownloadSize_membership_witness :
  (forall id, In id (selectedChapters (with_selectedChapters [2; 1; 2] ui0))
              <-> In id (selectedChapters ui0))
  /\ estimatedDownloadSize
       (updateEstimatedDownloadSize
          (Some [ {| chapter_id := 1; verses_count := 7 |};
                  {| chapter_id := 2; verses_count := 286 |} ])
          (with_selectedChapters [2; 1; 2] ui0))
     = estimatedDownloadSize
         (updateEstimatedDownloadSize
            (Some [ {| chapter_id := 1; verses_count := 7 |};
                    {| chapter_id := 2; verses_count := 286 |} ])
            ui0).
Proof.
  assert (Hsame : forall id, In id (selectedChapters (with_selectedChapters [2; 1; 2] ui0))
                             <-> In id (selectedChapters ui0))
    by (intros id; cbn; tauto).
  split; [exact Hsame |].
  exact (updateEstimatedDownloadSize_membership _ _ _ Hsame).
Defined.

Lemma updateEstimatedDownloadSize_bounds_witness :
  Forall (fun c => 0 <= verses_count c)
         [ {| chapter_id := 1; verses_count := 7 |};
           {| chapter_id := 2; verses_count := 286 |} ]
  /\ 0 <= estimatedDownloadSize
            (updateEstimatedDownloadSize
               (Some [ {| chapter_id := 1; verses_count := 7 |};
                       {| chapter_id := 2; verses_count := 286 |} ]) ui0)
       <= estimateMultipleChaptersSize
            [ {| chapter_id := 1; verses_count := 7 |};
              {| chapter_id := 2; verses_count := 286 |} ].
Proof.
  assert (Hverses : Forall (fun c => 0 <= verses_count c)
                           [ {| chapter_id := 1; verses_count := 7 |};
                             {| chapter_id := 2; verses_count := 286 |} ])
    by (repeat constructor; cbn; lia).
  split; [exact Hverses |].
  exact (proj1 (updateEstimatedDownloadSize_bounds
                  (Some [ {| chapter_id := 1; verses_count := 7 |};
                          {| chapter_id := 2; verses_count := 286 |} ]) ui0 Hverses)).
Defined.
